(** * deepspeed/runtime/compiler.py: lazy torch.compile wrapper

    A shallow embedding of [src/deepspeed/runtime/compiler.py].  Python
    values are a small inductive type, dict objects live in a store and are
    passed by reference (so aliasing is visible), and every function of the
    source is a computation in a state-and-exception monad over that store,
    the state of the host (torch, importlib) and a log of the calls made
    into the host. *)

From Stdlib Require Import String Ascii List ZArith Bool.
From stdpp Require Import base option gmap strings list fin_maps.
Import ListNotations.
Local Open Scope string_scope.

(** ** Python values *)

(** Dict objects are referred to by their address in the store. *)
Abbreviation loc := positive (only parsing).

Inductive PyVal : Type :=
| PyNone
| PyBool (b : bool)
| PyInt (n : Z)
| PyStr (s : string)
| PyDictRef (l : loc)
| PyObj (o : positive)          (* a host object: module, function, nn.Module *)
| PyBoundMethod (name : string). (* a method of the wrapper, bound to it *)

(** The contents of one dict object. *)
Abbreviation Dict := (gmap string PyVal) (only parsing).

(** [isinstance(v, str)] *)
Definition is_str (v : PyVal) : bool :=
  match v with PyStr _ => true | _ => false end.

(** ** Exceptions *)

Inductive PyExn : Type :=
| ValueError (msg : string)
| ImportError (msg : string)
| ModuleNotFoundError (msg : string)
| AttributeError (msg : string)
| TypeError (msg : string)
| AssertionError (msg : string)
| OtherError (cls msg : string).

(** What [except ImportError] catches: the class and its subclass. *)
Definition is_ImportError (e : PyExn) : bool :=
  match e with
  | ImportError _ | ModuleNotFoundError _ => true
  | _ => false
  end.

(** What [hasattr] and the fallback to [__getattr__] catch. *)
Definition is_AttributeError (e : PyExn) : bool :=
  match e with
  | AttributeError _ => true
  | _ => false
  end.

Inductive Result (A : Type) : Type :=
| Ok (a : A)
| Raise (e : PyExn).
Arguments Ok {A} a.
Arguments Raise {A} e.

(** ** The string operations of [get_backend_fn] *)

Definition dot : ascii := "."%char.

(** [s.split('.')]: never the empty list. *)
Fixpoint split_dot (s : string) : list string :=
  match s with
  | EmptyString => [EmptyString]
  | String c s' =>
      if Ascii.eqb c dot then EmptyString :: split_dot s'
      else match split_dot s' with
           | [] => [String c EmptyString]
           | w :: ws => String c w :: ws
           end
  end.

(** ['.'.join(ws)] *)
Fixpoint join_dot (ws : list string) : string :=
  match ws with
  | [] => EmptyString
  | [w] => w
  | w :: ws' => w ++ String dot (join_dot ws')
  end.

(** [xs[:-1]] *)
Definition all_but_last (ws : list string) : list string := removelast ws.

(** [xs[-1]] on a list that is not empty. *)
Definition last_item (ws : list string) : string := List.last ws EmptyString.

(** [module_name = '.'.join(backend_name.split('.')[:-1])] *)
Definition module_name_of (backend_name : string) : string :=
  join_dot (all_but_last (split_dot backend_name)).

(** [fn_name = backend_name.split('.')[-1]] *)
Definition fn_name_of (backend_name : string) : string :=
  last_item (split_dot backend_name).

(** A string without a dot. *)
Fixpoint dot_free (s : string) : bool :=
  match s with
  | EmptyString => true
  | String c s' => negb (Ascii.eqb c dot) && dot_free s'
  end.

(** ** The log of calls into the host *)

Inductive Event : Type :=
| EvImport (module_name : string)
    (* importlib.import_module(module_name) *)
| EvTorchCompile (module backend : PyVal) (kwargs : Dict)
    (* torch.compile(module, backend=backend, **kwargs) *)
| EvCompilerFn (fn module : PyVal)
    (* compiler_fn(module) *)
| EvDelegate (callee : PyVal) (args : list PyVal) (kwargs : list (string * PyVal)).
    (* wrapped( *args, **kwargs) *)

(** The two ways [forward] compiles. *)
Definition is_compile_event (ev : Event) : bool :=
  match ev with
  | EvTorchCompile _ _ _ | EvCompilerFn _ _ => true
  | _ => false
  end.


Definition compile_calls (tr : list Event) : nat :=
  length (List.filter is_compile_event tr).


(** The three classes of values that [torch.nn.Module.__setattr__] tells
    apart. *)
Inductive Kind : Type :=
| KPlain
| KModule
| KParameter.

(** ** The host: torch, importlib and the objects they hand out

    None of it is code of this file, so it is a parameter.  A call into the
    host may return or raise, and may change the host's own state. *)

Record Host (HostState : Type) : Type := MkHost {
  (* hasattr(torch, "compile") *)
  has_compile : bool;
  (* __debug__: assert statements are executed *)
  py_debug : bool;
  (* torch._dynamo.list_backends() *)
  list_backends : list string;
  (* importlib.import_module(name) *)
  import_module : string -> HostState -> Result PyVal * HostState;
  (* getattr(obj, name) on a host object *)
  host_getattr : PyVal -> string -> HostState -> Result PyVal * HostState;
  (* callable(obj) on a host object *)
  host_callable : positive -> bool;
  (* torch.compile(module, backend=backend, **kwargs) *)
  torch_compile : PyVal -> PyVal -> Dict -> HostState -> Result PyVal * HostState;
  (* f( *args, **kwargs) for a host object f *)
  host_call : PyVal -> list PyVal -> list (string * PyVal) -> HostState
              -> Result PyVal * HostState;
  (* str(v), as an f-string formats it *)
  py_format : PyVal -> string;
  (* how [torch.nn.Module.__setattr__] classes a host object: an instance
     of torch.nn.Parameter, of torch.nn.Module, or neither *)
  host_kind : positive -> Kind;
  (* torch.typename(v) *)
  py_typename : PyVal -> string
}.
Arguments MkHost {HostState}.
Arguments has_compile {HostState} h.
Arguments py_debug {HostState} h.
Arguments list_backends {HostState} h.
Arguments import_module {HostState} h.
Arguments host_getattr {HostState} h.
Arguments host_callable {HostState} h.
Arguments torch_compile {HostState} h.
Arguments host_call {HostState} h.
Arguments py_format {HostState} h.
Arguments host_kind {HostState} h.
Arguments py_typename {HostState} h.

(** ** The world and the monad *)

Record World (HostState : Type) : Type := MkWorld {
  dicts : gmap loc Dict;      (* the dict objects *)
  host_st : HostState;
  trace : list Event          (* oldest call first *)
}.
Arguments MkWorld {HostState}.
Arguments dicts {HostState} w.
Arguments host_st {HostState} w.
Arguments trace {HostState} w.

(** A computation over a state [S]: it returns or raises, and the state it
    leaves behind is kept in both cases. *)
Definition M (S A : Type) : Type := S -> Result A * S.

Definition ret {S A} (a : A) : M S A := fun s => (Ok a, s).
Definition raise {S A} (e : PyExn) : M S A := fun s => (Raise e, s).
Definition bind {S A B} (m : M S A) (k : A -> M S B) : M S B :=
  fun s => match m s with
           | (Ok a, s') => k a s'
           | (Raise e, s') => (Raise e, s')
           end.
Definition get {S} : M S S := fun s => (Ok s, s).
Definition modify {S} (f : S -> S) : M S unit := fun s => (Ok tt, f s).

(** [try: m except <classes caught>: handler] *)
Definition try_except {S A} (m : M S A) (caught : PyExn -> bool)
    (handler : PyExn -> M S A) : M S A :=
  fun s => match m s with
           | (Raise e, s') => if caught e then handler e s' else (Raise e, s')
           | r => r
           end.

Declare Scope py_scope.
Delimit Scope py_scope with py.
Notation "'let*' x ':=' m 'in' k" := (bind m (fun x => k))
  (at level 10, x name, m at level 100, k at level 200) : py_scope.
Local Open Scope py_scope.

(** ** The objects of the source *)

(** [CompileConfig]: the three declared fields.  [backend] is declared [str]
    but holds what [validate_backend] returned, which may be a function. *)
Record CompileConfig : Type := MkCompileConfig {
  enabled : bool;
  backend : PyVal;
  kwargs : loc
}.

(** Where an attribute assigned through [torch.nn.Module.__setattr__]
    lives.  Only an entry of the instance [__dict__] is found by attribute
    lookup: the class replaces the [__getattr__] of [torch.nn.Module], which
    is what would look into [_modules] and [_parameters]. *)
Inductive Slot : Type :=
| InDict (v : PyVal)         (* self.__dict__[name] *)
| InModules (v : PyVal)      (* self._modules[name]: a Module or None *)
| InParameters (v : PyVal)   (* self._parameters[name]: a Parameter or None *)
| Absent.                    (* in none of them *)

(** The name is neither a submodule nor a parameter. *)
Definition unregistered (s : Slot) : bool :=
  match s with
  | InDict _ | Absent => true
  | _ => false
  end.

(** [CompiledModuleWrapper]: what [__init__] stores.  [wrapped] is written
    into [__dict__] directly; [_is_compiled] and [_compile_kwargs] only
    ever get a bool and a dict, which [__setattr__] puts into [__dict__];
    [_backend] and [_compiler_fn] get values of any class. *)
Record Wrapper : Type := MkWrapper {
  modules_wrapped : PyVal;     (* self._modules['wrapped'] *)
  wrapped : PyVal;             (* self.__dict__['wrapped'] *)
  _is_compiled : bool;
  _backend : Slot;
  _compile_kwargs : loc;
  _compiler_fn : Slot
}.

Section Program.

Context {HostState : Type}.
Variable h : Host HostState.

Abbreviation W := (World HostState) (only parsing).
Abbreviation St := (Wrapper * World HostState)%type (only parsing).

(** *** Primitive steps *)

Definition log (ev : Event) : M W unit :=
  modify (fun w => MkWorld (dicts w) (host_st w) (trace w ++ [ev])).

(** A call into the host: only the host's state changes. *)
Definition host_op {A} (f : HostState -> Result A * HostState) : M W A :=
  fun w => let (r, hs) := f (host_st w) in (r, MkWorld (dicts w) hs (trace w)).

(** The contents of the dict object at [l]. *)
Definition dict_get (l : loc) : M W Dict :=
  fun w => match dicts w !! l with
           | Some d => (Ok d, w)
           | None => (Raise (OtherError "SystemError" "no dict object at this address"), w)
           end.

Definition dict_put (l : loc) (d : Dict) : M W unit :=
  modify (fun w => MkWorld (<[l := d]> (dicts w)) (host_st w) (trace w)).

(** [del d[k]] *)
Definition dict_del (l : loc) (k : string) : M W unit :=
  let* d := dict_get l in
  match d !! k with
  | Some _ => dict_put l (delete k d)
  | None => raise (OtherError "KeyError" k)
  end.

(** [dst.update(src)]: the entries of [src] win. *)
Definition dict_update (dst src : loc) : M W unit :=
  let* s := dict_get src in
  let* d := dict_get dst in
  dict_put dst (s ∪ d).

(** A new dict object with the contents [d]. *)
Definition dict_new (d : Dict) : M W loc :=
  fun w => let l := fresh (dom (dicts w)) in
           (Ok l, MkWorld (<[l := d]> (dicts w)) (host_st w) (trace w)).

(** [callable(v)] *)
Definition callable (v : PyVal) : bool :=
  match v with
  | PyObj o => host_callable h o
  | PyBoundMethod _ => true
  | _ => false
  end.

(** [isinstance(v, torch.nn.Parameter)], [isinstance(v, torch.nn.Module)] *)
Definition kind_of (v : PyVal) : Kind :=
  match v with
  | PyObj o => host_kind h o
  | _ => KPlain
  end.

(** *** Module-level functions *)

Definition COMPILE_CONFIG : string := "compile".

Definition is_compile_supported : bool := has_compile h.

Definition get_backend_fn (backend_name : string) : M W PyVal :=
  (* Get module name from backend name *)
  let module_name := module_name_of backend_name in
  let fn_name := fn_name_of backend_name in
  try_except
    (let* _ := log (EvImport module_name) in
     let* module := host_op (import_module h module_name) in
     host_op (host_getattr h module fn_name))
    is_ImportError
    (fun _ => raise (ValueError ("Could not import module " ++ module_name
                                 ++ " for torch.compile backend."))).

(** *** CompileConfig *)

(** The two ValueErrors of the validators. *)
Definition unsupported : PyExn :=
  ValueError "torch.compile is not supported on this version of PyTorch.".

Definition invalid_backend (v : PyVal) : PyExn :=
  ValueError ("backend for torch.compile must be a string or Callable: " ++ py_format h v).

Definition validate_enabled (field_value : bool) : M W bool :=
  if field_value && negb is_compile_supported
  then raise unsupported
  else ret field_value.

Definition validate_backend (field_value : PyVal) : M W PyVal :=
  if is_compile_supported then
    match field_value with
    | PyStr s =>
        if bool_decide (s ∈ list_backends h) then ret field_value
        else get_backend_fn s
    | _ =>
        if negb (callable field_value)
        then raise (invalid_backend field_value)
        else ret field_value
    end
  else ret field_value.

(** Modelled from the spec: the constructor that [CompileConfig] inherits
    from [DeepSpeedConfigModel] (config_utils.py and pydantic are not in
    src/).  Per section 6 the recognized fields are [enabled] (bool,
    default false), [backend] (default "inductor") and [kwargs] (mapping,
    default empty); per section 4.1 a field that is given goes through its
    validation rule and a failure is raised, and a field that is absent
    takes its default.  Each settings object gets a mapping of its own. *)
Definition CompileConfig_new (fields : Dict) : M W CompileConfig :=
  let* e := match fields !! "enabled" with
            | None => ret false
            | Some (PyBool b) => validate_enabled b
            | Some _ => raise (ValueError "enabled: value could not be parsed to a boolean")
            end in
  let* b := match fields !! "backend" with
            | None => ret (PyStr "inductor")
            | Some v => validate_backend v
            end in
  let* k := match fields !! "kwargs" with
            | None => dict_new ∅
            | Some (PyDictRef l) => let* d := dict_get l in dict_new d
            | Some _ => raise (ValueError "kwargs: value is not a valid dict")
            end in
  ret (MkCompileConfig e b k).

Definition get_compile_config (param_dict : Dict) : M W CompileConfig :=
  let* compile_config_dict :=
    match param_dict !! COMPILE_CONFIG with
    | Some (PyDictRef l) => dict_get l
    | Some _ => raise (TypeError "argument after ** must be a mapping")
    | None => ret ∅
    end in
  CompileConfig_new compile_config_dict.

(** *** CompiledModuleWrapper *)

(** A step on the world, taken inside a method of the wrapper. *)
Definition lift {A} (m : M W A) : M St A :=
  fun st => let (r, w) := m (snd st) in (r, (fst st, w)).

Definition get_self : M St Wrapper := fun st => (Ok (fst st), st).

Definition set_self (f : Wrapper -> Wrapper) : M St unit :=
  modify (fun st => (f (fst st), snd st)).

Definition with_wrapped (m : PyVal) (self : Wrapper) : Wrapper :=
  MkWrapper (modules_wrapped self) m (_is_compiled self) (_backend self)
            (_compile_kwargs self) (_compiler_fn self).

Definition with_is_compiled (b : bool) (self : Wrapper) : Wrapper :=
  MkWrapper (modules_wrapped self) (wrapped self) b (_backend self)
            (_compile_kwargs self) (_compiler_fn self).

Definition with_backend (v : Slot) (self : Wrapper) : Wrapper :=
  MkWrapper (modules_wrapped self) (wrapped self) (_is_compiled self) v
            (_compile_kwargs self) (_compiler_fn self).

Definition with_compiler_fn (v : Slot) (self : Wrapper) : Wrapper :=
  MkWrapper (modules_wrapped self) (wrapped self) (_is_compiled self) (_backend self)
            (_compile_kwargs self) v.

(** [__getattr__(self, name)] *)
Definition getattr_fallback (name : string) : M St PyVal :=
  let* self := get_self in
  lift (host_op (host_getattr h (wrapped self) name)).

(** [hasattr(self, name)] for a name that attribute lookup does not find on
    the wrapper itself: [__getattr__] asks the wrapped object, and only an
    AttributeError counts as "no". *)
Definition hasattr_fallback (name : string) : M St bool :=
  try_except (let* _ := getattr_fallback name in ret true)
             is_AttributeError (fun _ => ret false).

(** [self.<name>] for one of the two attributes whose place can change: the
    entry of the instance dict if there is one, else what [__getattr__]
    gets from the wrapped object. *)
Definition read_at (name : string) (place : Slot) (self : Wrapper) (hs : HostState)
    : Result PyVal * HostState :=
  match place with
  | InDict v => (Ok v, hs)
  | _ => host_getattr h (wrapped self) name hs
  end.

Definition read_slot (name : string) (slot : Wrapper -> Slot) : M St PyVal :=
  let* self := get_self in
  lift (host_op (read_at name (slot self) self)).

Definition cannot_assign (v : PyVal) (as_what name expected : string) : PyExn :=
  TypeError ("cannot assign '" ++ py_typename h v ++ "' as " ++ as_what ++ " '" ++ name
             ++ "' (" ++ expected ++ " or None expected)").

Definition in_parameters (s : Slot) : bool :=
  match s with InParameters _ => true | _ => false end.

(** [self.<name> = value], which is [torch.nn.Module.__setattr__]: a
    Parameter is taken out of [__dict__] and [_modules] and registered in
    [_parameters] ([register_parameter], which refuses a name that
    [hasattr] finds and that is no parameter yet); a name that is a
    parameter takes only a Parameter or None; a Module is taken out of
    [__dict__] and put into [_modules]; a name that is a submodule takes
    only a Module or None; anything else goes into [__dict__].  [slot] and
    [put] read and write the place of [name] in the wrapper.  (The host is
    taken to have no global registration hooks, and neither name is ever a
    buffer.) *)
Definition nn_setattr (name : string) (slot : Wrapper -> Slot)
    (put : Slot -> Wrapper -> Wrapper) (value : PyVal) : M St unit :=
  let* self := get_self in
  match kind_of value with
  | KParameter =>
      let* _ := if in_parameters (slot self) then ret tt else set_self (put Absent) in
      let* found := hasattr_fallback name in
      if found && negb (in_parameters (slot self))
      then raise (OtherError "KeyError" ("attribute '" ++ name ++ "' already exists"))
      else set_self (put (InParameters value))
  | kind =>
      match slot self with
      | InParameters _ =>
          match value with
          | PyNone =>
              let* _ := hasattr_fallback name in
              set_self (put (InParameters PyNone))
          | _ => raise (cannot_assign value "parameter" name "torch.nn.Parameter")
          end
      | place =>
          match kind with
          | KModule => set_self (put (InModules value))
          | _ =>
              match place with
              | InModules _ =>
                  match value with
                  | PyNone => set_self (put (InModules PyNone))
                  | _ => raise (cannot_assign value "child module" name "torch.nn.Module")
                  end
              | _ => set_self (put (InDict value))
              end
          end
      end
  end.

(** [__init__(self, module, compile_config=None)].  [super().__init__()]
    is the host's and leaves nothing this file reads. *)
Definition CompiledModuleWrapper_init (module : PyVal)
    (compile_config : option CompileConfig) : M W Wrapper :=
  if py_debug h && negb is_compile_supported
  then raise (AssertionError "torch.compile is not supported on this version of PyTorch.")
  else
    match compile_config with
    | None => raise (AttributeError "'NoneType' object has no attribute 'backend'")
    | Some c =>
        fun w =>
          let self := MkWrapper module module false Absent (kwargs c) Absent in
          match (let* _ := nn_setattr "_backend" _backend with_backend (backend c) in
                 nn_setattr "_compiler_fn" _compiler_fn with_compiler_fn PyNone) (self, w) with
          | (Ok _, (self', w')) => (Ok self', w')
          | (Raise e, (_, w')) => (Raise e, w')
          end
    end.

(** The read-only properties. *)
Definition is_compiled (self : Wrapper) : bool := _is_compiled self.
Definition torch_compile_kwargs (self : Wrapper) : PyVal := PyDictRef (_compile_kwargs self).
Definition compiler_fn : M St PyVal := read_slot "_compiler_fn" _compiler_fn.

(** The names of the methods the class defines. *)
Definition method_names : list string :=
  ["__init__"; "__getattr__"; "set_backend"; "set_torch_compile_kwargs";
   "set_compiler_fn"; "forward"].

(** What attribute lookup finds for a name on the wrapper itself: a value,
    or a property whose getter reads a field that is not in the instance
    [__dict__]. *)
Inductive Lookup : Type :=
| Found (v : PyVal)
| ViaProperty (field : string).

Definition stored_or (s : Slot) (otherwise : option Lookup) : option Lookup :=
  match s with
  | InDict v => Some (Found v)
  | _ => otherwise
  end.

(** Attribute lookup on the wrapper, before it falls back to
    [__getattr__]: the properties of the class, the entries of the instance
    [__dict__], the methods of the class, and for any other name whatever
    [torch.nn.Module] supplies ([base_attr], the host's). *)
Definition own_attr (base_attr : string -> option PyVal) (self : Wrapper)
    (name : string) : option Lookup :=
  if String.eqb name "is_compiled" then Some (Found (PyBool (is_compiled self)))
  else if String.eqb name "backend"
  then stored_or (_backend self) (Some (ViaProperty "_backend"))
  else if String.eqb name "torch_compile_kwargs" then Some (Found (torch_compile_kwargs self))
  else if String.eqb name "compiler_fn"
  then stored_or (_compiler_fn self) (Some (ViaProperty "_compiler_fn"))
  else if String.eqb name "wrapped" then Some (Found (wrapped self))
  else if String.eqb name "_is_compiled" then Some (Found (PyBool (_is_compiled self)))
  else if String.eqb name "_backend"
  then stored_or (_backend self) (Found <$> base_attr name)
  else if String.eqb name "_compile_kwargs" then Some (Found (PyDictRef (_compile_kwargs self)))
  else if String.eqb name "_compiler_fn"
  then stored_or (_compiler_fn self) (Found <$> base_attr name)
  else if bool_decide (name ∈ method_names) then Some (Found (PyBoundMethod name))
  else Found <$> base_attr name.

(** [getattr(wrapper, name)].  A property getter that ends in an
    AttributeError makes the lookup fall back to [__getattr__] with the
    name of the property. *)
Definition wrapper_getattr (base_attr : string -> option PyVal) (name : string)
    : M St PyVal :=
  let* self := get_self in
  match own_attr base_attr self name with
  | Some (Found v) => ret v
  | Some (ViaProperty field) =>
      try_except (getattr_fallback field) is_AttributeError
                 (fun _ => getattr_fallback name)
  | None => getattr_fallback name
  end.

Definition set_backend (backend : PyVal) : M St unit :=
  match backend with
  | PyStr s =>
      let* fn := lift (get_backend_fn s) in
      nn_setattr "_backend" _backend with_backend fn
  | _ =>
      if callable backend then nn_setattr "_backend" _backend with_backend backend
      else raise (invalid_backend backend)
  end.

(** [kwargs] is the caller's dict object, by reference. *)
Definition set_torch_compile_kwargs (kwargs : loc) : M St unit :=
  let* d := lift (dict_get kwargs) in
  let* _ := match d !! "backend" with
            | Some b =>
                let* _ := set_backend b in
                lift (dict_del kwargs "backend")
            | None => ret tt
            end in
  let* self := get_self in
  lift (dict_update (_compile_kwargs self) kwargs).

Definition set_compiler_fn (compiler_fn : PyVal) : M St unit :=
  nn_setattr "_compiler_fn" _compiler_fn with_compiler_fn compiler_fn.

(** The body of [if not self.is_compiled:] in [forward].
    [self._compiler_fn] is read for the test and again for the call.  In
    [torch.compile(self.wrapped, backend=self._backend, **self._compile_kwargs)]
    a "backend" entry of the unpacked dict repeats the keyword given
    explicitly, which the call itself rejects before torch is entered. *)
Definition compile_step : M St unit :=
  let* fn := read_slot "_compiler_fn" _compiler_fn in
  let* _ :=
    match fn with
    | PyNone =>
        let* self := get_self in
        let* b := read_slot "_backend" _backend in
        let* kw := lift (dict_get (_compile_kwargs self)) in
        match kw !! "backend" with
        | Some _ =>
            raise (TypeError "torch.compile() got multiple values for keyword argument 'backend'")
        | None =>
            let* _ := lift (log (EvTorchCompile (wrapped self) b kw)) in
            let* m := lift (host_op (torch_compile h (wrapped self) b kw)) in
            set_self (with_wrapped m)
        end
    | _ =>
        let* fn := read_slot "_compiler_fn" _compiler_fn in
        let* self := get_self in
        let* _ := lift (log (EvCompilerFn fn (wrapped self))) in
        let* m := lift (host_op (host_call h fn [wrapped self] [])) in
        set_self (with_wrapped m)
    end in
  set_self (with_is_compiled true).

(** [return self.__dict__['wrapped']( *args, **kwargs)] *)
Definition delegate (args : list PyVal) (kwargs : list (string * PyVal)) : M St PyVal :=
  let* self := get_self in
  let* _ := lift (log (EvDelegate (wrapped self) args kwargs)) in
  lift (host_op (host_call h (wrapped self) args kwargs)).

Definition forward (args : list PyVal) (kwargs : list (string * PyVal)) : M St PyVal :=
  let* self := get_self in
  let* _ := if negb (is_compiled self) then compile_step else ret tt in
  delegate args kwargs.

(** A caller that calls the wrapper once per element of [calls], whether
    or not the call before raised: the outcome of every call, with the
    state it left. *)
Fixpoint run_forwards (calls : list (list PyVal * list (string * PyVal))) (st : St)
    : list (Result PyVal * St) :=
  match calls with
  | [] => []
  | (args, kwargs) :: rest =>
      let out := forward args kwargs st in
      out :: run_forwards rest (snd out)
  end.

(** The same caller, calling the wrapped object directly. *)
Fixpoint run_delegates (calls : list (list PyVal * list (string * PyVal))) (st : St)
    : list (Result PyVal * St) :=
  match calls with
  | [] => []
  | (args, kwargs) :: rest =>
      let out := delegate args kwargs st in
      out :: run_delegates rest (snd out)
  end.

(** The state after the last of a list of outcomes. *)
Fixpoint final_state (st0 : St) (outs : list (Result PyVal * St)) : St :=
  match outs with
  | [] => st0
  | out :: rest => final_state (snd out) rest
  end.

(** What the host answers when [callee] is called once per element of
    [calls], from the host state [hs] on. *)
Fixpoint host_results (callee : PyVal) (calls : list (list PyVal * list (string * PyVal)))
    (hs : HostState) : list (Result PyVal) :=
  match calls with
  | [] => []
  | (args, kwargs) :: rest =>
      let (r, hs') := host_call h callee args kwargs hs in
      r :: host_results callee rest hs'
  end.

(** What [forward] asks for when it compiles. *)
Inductive CompileRequest : Type :=
| ByTorchCompile (backend : PyVal) (options : Dict)
| ByCompilerFn (fn : PyVal).

(** The compilation call of a request: what is logged, and what the host
    is asked. *)
Definition compile_event (self : Wrapper) (r : CompileRequest) : Event :=
  match r with
  | ByTorchCompile b options => EvTorchCompile (wrapped self) b options
  | ByCompilerFn fn => EvCompilerFn fn (wrapped self)
  end.

Definition compile_call (self : Wrapper) (r : CompileRequest)
    : HostState -> Result PyVal * HostState :=
  match r with
  | ByTorchCompile b options => torch_compile h (wrapped self) b options
  | ByCompilerFn fn => host_call h fn [wrapped self] []
  end.

(** What the compilation step does before it enters the host to compile:
    it reads the compiler function and, if that is None, the backend and
    the stored options.  The request it then makes, or the exception it
    raises instead, with the state of the host after the reads. *)
Definition compile_request (self : Wrapper) (w : W) : Result CompileRequest * HostState :=
  match read_at "_compiler_fn" (_compiler_fn self) self (host_st w) with
  | (Raise e, hs1) => (Raise e, hs1)
  | (Ok PyNone, hs1) =>
      match read_at "_backend" (_backend self) self hs1 with
      | (Raise e, hs2) => (Raise e, hs2)
      | (Ok b, hs2) =>
          match dicts w !! _compile_kwargs self with
          | None => (Raise (OtherError "SystemError" "no dict object at this address"), hs2)
          | Some options =>
              match options !! "backend" with
              | Some _ =>
                  (Raise (TypeError
                     "torch.compile() got multiple values for keyword argument 'backend'"),
                   hs2)
              | None => (Ok (ByTorchCompile b options), hs2)
              end
          end
      end
  | (Ok _, hs1) =>
      match read_at "_compiler_fn" (_compiler_fn self) self hs1 with
      | (Raise e, hs2) => (Raise e, hs2)
      | (Ok fn, hs2) => (Ok (ByCompilerFn fn), hs2)
      end
  end.

(** The [EvDelegate] entries of calling [callee] once per element of [calls]. *)
Definition delegate_events (callee : PyVal)
    (calls : list (list PyVal * list (string * PyVal))) : list Event :=
  List.map (fun c => EvDelegate callee (fst c) (snd c)) calls.

(** Two states of a wrapper with the same wrapped object and the same flag. *)
Definition same_module (a b : Wrapper) : Prop :=
  wrapped b = wrapped a /\ _is_compiled b = _is_compiled a.

(** The operations a user of the wrapper has, and the state each leaves. *)
Inductive Op : Type :=
| CallForward (args : list PyVal) (kwargs : list (string * PyVal))
| CallSetBackend (backend : PyVal)
| CallSetKwargs (kwargs : loc)
| CallSetCompilerFn (compiler_fn : PyVal)
| CallGetattr (base_attr : string -> option PyVal) (name : string).

Definition run_op (op : Op) (st : St) : St :=
  match op with
  | CallForward args kwargs => snd (forward args kwargs st)
  | CallSetBackend b => snd (set_backend b st)
  | CallSetKwargs kw => snd (set_torch_compile_kwargs kw st)
  | CallSetCompilerFn fn => snd (set_compiler_fn fn st)
  | CallGetattr base_attr name => snd (wrapper_getattr base_attr name st)
  end.

End Program.

(** ** Concrete hosts and objects, for the examples below *)

Global Instance PyVal_eq_dec : EqDecision PyVal.
Proof. solve_decision. Defined.

Definition demo_module : PyVal := PyObj 1.
Definition demo_compiled : PyVal := PyObj 2.
Definition demo_package : PyVal := PyObj 10.
Definition demo_backend_fn : PyVal := PyObj 11.
Definition demo_compiler_fn : PyVal := PyObj 12.

(** An instance of [torch.nn.Module] with a [__call__] that compiles, and
    an instance of [torch.nn.Parameter]. *)
Definition demo_module_fn : PyVal := PyObj 6.
Definition demo_parameter : PyVal := PyObj 7.

Definition demo_format (v : PyVal) : string :=
  match v with
  | PyNone => "None"
  | PyBool true => "True"
  | PyBool false => "False"
  | PyStr s => s
  | _ => "<object>"
  end.

(** [importlib.import_module] refuses the empty name and a relative name
    before it looks for a module. *)
Definition demo_import (name : string) (n : nat) : Result PyVal * nat :=
  if String.eqb name "" then (Raise (ValueError "Empty module name"), n)
  else if String.prefix "." name
  then (Raise (TypeError ("the 'package' argument is required to perform a relative import for "
                          ++ name)), n)
  else if String.eqb name "my.pkg" then (Ok demo_package, S n)
  else (Raise (ModuleNotFoundError ("No module named " ++ name)), n).

Definition demo_getattr (obj : PyVal) (name : string) (n : nat) : Result PyVal * nat :=
  if bool_decide (obj = demo_package) && String.eqb name "fn" then (Ok demo_backend_fn, n)
  else if bool_decide (obj = demo_module) && String.eqb name "weight" then (Ok (PyInt 3), n)
  else if bool_decide (obj = demo_compiled) && String.eqb name "weight" then (Ok (PyInt 4), n)
  else (Raise (AttributeError name), n).

(** Modules and functions are callable, a Parameter is not. *)
Definition demo_callable (o : positive) : bool :=
  bool_decide (o ∈ [1; 2; 5; 6; 11; 12]%positive).

Definition demo_kind (o : positive) : Kind :=
  if bool_decide (o ∈ [1; 2; 5; 6]%positive) then KModule
  else if bool_decide (o = 7%positive) then KParameter
  else KPlain.

Definition demo_typename (v : PyVal) : string :=
  match v with
  | PyNone => "NoneType"
  | PyBool _ => "bool"
  | PyInt _ => "int"
  | PyStr _ => "str"
  | PyDictRef _ => "dict"
  | PyObj _ => "object"
  | PyBoundMethod _ => "method"
  end.

(** Calling the module answers 100, calling its compiled form answers the
    number of host calls so far; the compiler function answers the
    compiled form. *)
Definition demo_call (f : PyVal) (args : list PyVal) (kw : list (string * PyVal))
    (n : nat) : Result PyVal * nat :=
  if bool_decide (f = demo_compiler_fn) || bool_decide (f = demo_module_fn)
  then (Ok demo_compiled, S n)
  else if bool_decide (f = demo_module) then (Ok (PyInt 100), S n)
  else if bool_decide (f = demo_compiled) then (Ok (PyInt (Z.of_nat n)), S n)
  else (Raise (TypeError "object is not callable"), n).

(** A host with torch.compile. *)
Definition demo_host : Host nat :=
  MkHost true true ["inductor"; "eager"] demo_import demo_getattr demo_callable
         (fun _ _ _ n => (Ok demo_compiled, S n)) demo_call demo_format
         demo_kind demo_typename.

(** A host whose torch.compile raises. *)
Definition failing_host : Host nat :=
  MkHost true true ["inductor"; "eager"] demo_import demo_getattr demo_callable
         (fun _ _ _ n => (Raise (OtherError "RuntimeError" "compilation failed"), S n))
         demo_call demo_format demo_kind demo_typename.

(** A host without torch.compile. *)
Definition old_host : Host nat :=
  MkHost false true [] demo_import demo_getattr demo_callable
         (fun _ _ _ n => (Raise (AttributeError "compile"), n)) demo_call demo_format
         demo_kind demo_typename.

(** A world with one dict object, the options of the wrapper, at address 1. *)
Definition demo_world (options : Dict) : World nat :=
  MkWorld {[ 1%positive := options ]} 0 [].

Definition demo_wrapper : Wrapper :=
  MkWrapper demo_module demo_module false (InDict (PyStr "inductor")) 1%positive
            (InDict PyNone).

Definition demo_state : Wrapper * World nat := (demo_wrapper, demo_world ∅).

(** [demo_state] after the compilation step on [demo_host]. *)
Definition demo_compiled_state : Wrapper * World nat :=
  (MkWrapper demo_module demo_compiled true (InDict (PyStr "inductor")) 1%positive
             (InDict PyNone),
   MkWorld {[ 1%positive := ∅ ]} 1 [EvTorchCompile demo_module (PyStr "inductor") ∅]).

(** Options that name a backend by its dotted path. *)
Definition demo_options : Dict :=
  <["backend" := PyStr "my.pkg.fn"]> {[ "mode" := PyStr "max-autotune" ]}.

(** A world where the caller holds [demo_options] in a dict object of its
    own, at address 2, and the options of the wrapper are empty. *)
Definition demo_caller_world : World nat :=
  MkWorld (<[ 2%positive := demo_options ]> {[ 1%positive := ∅ ]}) 0 [].

(** Two calls: no arguments, then one positional and one keyword argument. *)
Definition demo_calls : list (list PyVal * list (string * PyVal)) :=
  [([], []); ([PyInt 1], [("scale", PyInt 2)])].

(** ** Further code of the file, and callers *)

Section Callers.

Context {HostState : Type}.
Variable h : Host HostState.

(** [disable(func)].  [torch.compiler.disable] is the host's and is passed
    in as [compiler_disable]. *)
Definition disable (compiler_disable : PyVal -> HostState -> Result PyVal * HostState)
    (func : PyVal) : M (World HostState) PyVal :=
  if is_compile_supported h then host_op (compiler_disable func)
  else ret func.

(** A user who applies a list of operations to the wrapper, one after the
    other, whatever each returns or raises. *)
Fixpoint run_ops (ops : list Op) (st : Wrapper * World HostState)
    : Wrapper * World HostState :=
  match ops with
  | [] => st
  | op :: rest => run_ops rest (run_op h op st)
  end.

End Callers.

(** A step that leaves every field of the wrapper but [_backend] and makes
    no compilation call. *)
Definition quiet_step {HostState : Type} (st st' : Wrapper * World HostState) : Prop :=
  fst st' = with_backend (_backend (fst st')) (fst st)
  /\ compile_calls (trace (snd st')) = compile_calls (trace (snd st)).


(** A second module, and a config whose options are the dict at address 1. *)
Definition demo_module2 : PyVal := PyObj 5.

Definition demo_config : CompileConfig :=
  MkCompileConfig true (PyStr "inductor") 1%positive.


(** A host whose package imports, but raises ImportError when its attribute
    "lazy" is read (a module that imports on attribute access). *)
Definition lazy_host : Host nat :=
  MkHost true true ["inductor"; "eager"] demo_import
         (fun obj name n =>
            if bool_decide (obj = demo_package) && String.eqb name "lazy"
            then (Raise (ImportError "cannot import name lazy"), n)
            else demo_getattr obj name n)
         demo_callable (fun _ _ _ n => (Ok demo_compiled, S n)) demo_call demo_format
         demo_kind demo_typename.

(** A world where the caller holds two dicts of plain options, at addresses
    2 and 3, and one that names the integer 5 as backend, at address 4. *)
Definition demo_plain_world : World nat :=
  MkWorld (<[ 4%positive := {[ "backend" := PyInt 5 ]} ]>
           (<[ 3%positive := {[ "fullgraph" := PyBool true ]} ]>
            (<[ 2%positive := {[ "mode" := PyStr "max-autotune" ]} ]>
             {[ 1%positive := ∅ ]}))) 0 [].

(** Operations on a compiled wrapper: a new compiler function, a new
    backend, new options, an attribute read, a call. *)
Definition demo_ops : list Op :=
  [CallSetCompilerFn demo_compiler_fn; CallSetBackend demo_backend_fn;
   CallSetKwargs 1%positive; CallGetattr (fun _ => None) "weight";
   CallForward [PyInt 1] []].

(** * Properties *)

(** Unfolds the plumbing of the monad. *)
Ltac py_unfold :=
  unfold bind, ret, raise, get, modify, lift, get_self, set_self, log, host_op,
    try_except, dict_get, dict_put, dict_new; simpl.

(** ** Splitting a dotted path *)

Lemma split_dot_not_nil (s : string) : split_dot s <> [].
Proof.
  induction s as [|c s IH]; simpl; [discriminate|].
  destruct (Ascii.eqb c dot); [discriminate|].
  destruct (split_dot s); discriminate.
Qed.

Lemma split_dot_dot_free (s : string) : dot_free s = true -> split_dot s = [s].
Proof.
  induction s as [|c s IH]; simpl; [reflexivity|].
  intros [Hc Hs]%andb_prop.
  destruct (Ascii.eqb c dot); [discriminate|].
  rewrite IH by exact Hs. reflexivity.
Qed.

(** Splitting after gluing with a dot gives the pieces of both sides. *)
Lemma split_dot_app (m f : string) :
  split_dot (m ++ String dot f) = (split_dot m ++ split_dot f)%list.
Proof.
  induction m as [|c m IH]; simpl.
  - reflexivity.
  - rewrite IH. destruct (Ascii.eqb c dot); [reflexivity|].
    pose proof (split_dot_not_nil m) as Hne.
    destruct (split_dot m) as [|w ws]; [congruence|]. reflexivity.
Qed.

(** ['.'.join(s.split('.')) == s] *)
Lemma join_split_dot (s : string) : join_dot (split_dot s) = s.
Proof.
  induction s as [|c s IH]; simpl; [reflexivity|].
  pose proof (split_dot_not_nil s) as Hne.
  destruct (Ascii.eqb c dot) eqn:Hc.
  - apply Ascii.eqb_eq in Hc. subst c.
    destruct (split_dot s) as [|w ws]; [congruence|].
    simpl in *. rewrite IH. reflexivity.
  - destruct (split_dot s) as [|w ws]; [congruence|].
    destruct ws as [|w' ws]; simpl in *; rewrite <- IH; reflexivity.
Qed.

Lemma module_name_of_dotted (m f : string) :
  dot_free f = true -> module_name_of (m ++ String dot f) = m.
Proof.
  intros Hf. unfold module_name_of, all_but_last.
  rewrite split_dot_app, (split_dot_dot_free f Hf), removelast_last.
  apply join_split_dot.
Qed.

Lemma fn_name_of_dotted (m f : string) :
  dot_free f = true -> fn_name_of (m ++ String dot f) = f.
Proof.
  intros Hf. unfold fn_name_of, last_item.
  rewrite split_dot_app, (split_dot_dot_free f Hf). apply last_last.
Qed.

(** The last segment never holds a dot. *)
Lemma fn_name_of_dot_free (s : string) : dot_free (fn_name_of s) = true.
Proof.
  unfold fn_name_of, last_item.
  induction s as [|c s IH]; simpl; [reflexivity|].
  pose proof (split_dot_not_nil s) as Hne.
  destruct (Ascii.eqb c dot) eqn:Hc.
  - destruct (split_dot s) as [|w ws]; [congruence|]. exact IH.
  - destruct (split_dot s) as [|w ws]; [congruence|].
    destruct ws as [|w' ws]; simpl in *; [rewrite Hc|]; exact IH.
Qed.

Section Resolver.

Context {HostState : Type}.
Variable h : Host HostState.

(** What [get_backend_fn] does, by the outcome of the import and of the
    attribute lookup. *)
Lemma get_backend_fn_unfold (name : string) (w : World HostState) :
  get_backend_fn h name w =
  let w0 := MkWorld (dicts w) (host_st w) (trace w ++ [EvImport (module_name_of name)]) in
  let failure := ValueError ("Could not import module " ++ module_name_of name
                             ++ " for torch.compile backend.") in
  match import_module h (module_name_of name) (host_st w) with
  | (Ok module, hs1) =>
      match host_getattr h module (fn_name_of name) hs1 with
      | (Ok v, hs2) => (Ok v, MkWorld (dicts w) hs2 (trace w0))
      | (Raise e, hs2) =>
          (Raise (if is_ImportError e then failure else e), MkWorld (dicts w) hs2 (trace w0))
      end
  | (Raise e, hs1) =>
      (Raise (if is_ImportError e then failure else e), MkWorld (dicts w) hs1 (trace w0))
  end.
Proof.
  unfold get_backend_fn, try_except, bind, log, modify, host_op, raise. simpl.
  destruct (import_module h (module_name_of name) (host_st w)) as [[module|e] hs1]; simpl.
  - destruct (host_getattr h module (fn_name_of name) hs1) as [[v|e] hs2]; simpl;
      [reflexivity|destruct (is_ImportError e); reflexivity].
  - destruct (is_ImportError e); reflexivity.
Qed.

(** C4, as amended: for a dotted path [m.f] whose module [m] imports and
    defines [f], [get_backend_fn] returns exactly that attribute, whatever
    it is (it is not asked whether it is callable); for every string whose
    module path fails to import with an ImportError (or a subclass of it),
    the call raises the ValueError "Could not import module <m> for
    torch.compile backend.", which is not an ImportError; and an import that
    fails with any other exception lets that exception through as it is. *)
Theorem get_backend_fn_resolves :
  (forall (m f : string) (w : World HostState) module hs1 v hs2,
      dot_free f = true ->
      import_module h m (host_st w) = (Ok module, hs1) ->
      host_getattr h module f hs1 = (Ok v, hs2) ->
      get_backend_fn h (m ++ String dot f) w
      = (Ok v, MkWorld (dicts w) hs2 (trace w ++ [EvImport m])))
  /\ (forall (name : string) (w : World HostState) e hs1,
      import_module h (module_name_of name) (host_st w) = (Raise e, hs1) ->
      is_ImportError e = true ->
      let failure := ValueError ("Could not import module " ++ module_name_of name
                                 ++ " for torch.compile backend.") in
      get_backend_fn h name w
      = (Raise failure, MkWorld (dicts w) hs1 (trace w ++ [EvImport (module_name_of name)]))
      /\ is_ImportError failure = false)
  /\ (forall (name : string) (w : World HostState) e hs1,
      import_module h (module_name_of name) (host_st w) = (Raise e, hs1) ->
      is_ImportError e = false ->
      get_backend_fn h name w
      = (Raise e, MkWorld (dicts w) hs1 (trace w ++ [EvImport (module_name_of name)]))).
Proof.
  split; [|split].
  - intros m f w module hs1 v hs2 Hf Himp Hattr.
    rewrite get_backend_fn_unfold, (module_name_of_dotted m f Hf),
      (fn_name_of_dotted m f Hf). simpl. rewrite Himp, Hattr. reflexivity.
  - intros name w e hs1 Himp He. simpl. split; [|reflexivity].
    rewrite get_backend_fn_unfold. simpl. rewrite Himp, He. reflexivity.
  - intros name w e hs1 Himp He.
    rewrite get_backend_fn_unfold. simpl. rewrite Himp, He. reflexivity.
Qed.

End Resolver.

Section Config.

Context {HostState : Type}.
Variable h : Host HostState.

(** C5: on a host without [torch.compile], validating [enabled = True]
    raises the ValueError "torch.compile is not supported on this version of
    PyTorch.": in the validator itself, in the construction of the settings
    from fields that give [enabled = True], and in [get_compile_config] on a
    mapping whose "compile" entry gives it.  Nothing is defaulted and the
    world is left as it was. *)
Theorem validate_enabled_unsupported :
  has_compile h = false ->
  (forall w : World HostState, validate_enabled h true w = (Raise unsupported, w))
  /\ (forall (fields : gmap string PyVal) (w : World HostState),
        fields !! "enabled" = Some (PyBool true) ->
        CompileConfig_new h fields w = (Raise unsupported, w))
  /\ (forall (param_dict fields : gmap string PyVal) (l : positive) (w : World HostState),
        param_dict !! COMPILE_CONFIG = Some (PyDictRef l) ->
        dicts w !! l = Some fields ->
        fields !! "enabled" = Some (PyBool true) ->
        get_compile_config h param_dict w = (Raise unsupported, w)).
Proof.
  intros Hno.
  assert (Hv : forall w : World HostState, validate_enabled h true w = (Raise unsupported, w)).
  { intros w. unfold validate_enabled, is_compile_supported. rewrite Hno. reflexivity. }
  assert (Hc : forall (fields : gmap string PyVal) (w : World HostState),
             fields !! "enabled" = Some (PyBool true) ->
             CompileConfig_new h fields w = (Raise unsupported, w)).
  { intros fields w He. unfold CompileConfig_new. rewrite He.
    unfold bind at 1. rewrite Hv. reflexivity. }
  split; [exact Hv|]. split; [exact Hc|].
  intros param_dict fields l w Hp Hl He.
  unfold get_compile_config. rewrite Hp. unfold bind, dict_get. rewrite Hl.
  apply Hc, He.
Qed.

(** C6: for every configuration mapping without the "compile" key,
    [get_compile_config] returns the defaults: [enabled = False],
    [backend = "inductor"] and [kwargs] an empty dict (a new object).  No
    validator runs, the host is not entered and no other dict changes. *)
Theorem get_compile_config_defaults (param_dict : gmap string PyVal) (w : World HostState) :
  param_dict !! COMPILE_CONFIG = None ->
  exists (c : CompileConfig) (w' : World HostState),
    get_compile_config h param_dict w = (Ok c, w')
    /\ enabled c = false
    /\ backend c = PyStr "inductor"
    /\ dicts w' !! kwargs c = Some ∅
    /\ dicts w !! kwargs c = None
    /\ (forall l : positive, l <> kwargs c -> dicts w' !! l = dicts w !! l)
    /\ host_st w' = host_st w
    /\ trace w' = trace w.
Proof.
  intros Hp.
  exists (MkCompileConfig false (PyStr "inductor") (fresh (dom (dicts w)))).
  exists (MkWorld (<[fresh (dom (dicts w)) := ∅]> (dicts w)) (host_st w) (trace w)).
  unfold get_compile_config. rewrite Hp. simpl.
  repeat split.
  - apply lookup_insert_eq.
  - apply not_elem_of_dom, is_fresh.
  - intros l Hl. apply lookup_insert_ne. congruence.
Qed.

(** *** Attribute assignment *)

(** [hasattr] through [__getattr__]: one [getattr] on the wrapped object;
    the wrapper, the dict objects and the log stay as they are. *)
Lemma hasattr_fallback_unfold (name : string) (self : Wrapper) (w : World HostState) :
  hasattr_fallback h name (self, w) =
  let (r, hs) := host_getattr h (wrapped self) name (host_st w) in
  let w' := MkWorld (dicts w) hs (trace w) in
  match r with
  | Ok _ => (Ok true, (self, w'))
  | Raise e => if is_AttributeError e then (Ok false, (self, w')) else (Raise e, (self, w'))
  end.
Proof.
  unfold hasattr_fallback, getattr_fallback. py_unfold.
  destruct (host_getattr h (wrapped self) name (host_st w)) as [[v|e] hs]; reflexivity.
Qed.

(** Takes the cases of an attribute assignment apart. *)
Ltac setattr_cases :=
  repeat (simpl in *; try discriminate;
          first [ rewrite hasattr_fallback_unfold
                | match goal with
                  | |- context [host_getattr ?a ?b ?c ?d] =>
                      destruct (host_getattr a b c d) as [[?|?] ?]
                  end
                | match goal with
                  | |- context [is_AttributeError ?e] => destruct (is_AttributeError e)
                  end
                | match goal with
                  | |- context [kind_of ?a ?v] => destruct (kind_of a v) eqn:?
                  end
                | match goal with
                  | |- context [in_parameters ?x] => is_var x; destruct x
                  end
                | match goal with
                  | |- context [match ?x with _ => _ end] => is_var x; destruct x
                  end
                | progress unfold modify ]).

(** A value that is neither a Module nor a Parameter, assigned to a name
    that is neither a submodule nor a parameter, becomes an entry of the
    instance dict. *)
Lemma nn_setattr_backend_plain (v : PyVal) (self : Wrapper) (w : World HostState) :
  kind_of h v = KPlain ->
  unregistered (_backend self) = true ->
  nn_setattr h "_backend" _backend with_backend v (self, w)
  = (Ok tt, (with_backend (InDict v) self, w)).
Proof.
  intros Hk Hu. unfold nn_setattr. py_unfold. rewrite Hk.
  destruct (_backend self); try discriminate; reflexivity.
Qed.




(** An assignment to [_backend] changes nothing but the place and the
    value of [_backend]: no other field, no dict object, no entry of the
    log. *)
Lemma nn_setattr_backend_frame (v : PyVal) (st : Wrapper * World HostState) :
  let out := nn_setattr h "_backend" _backend with_backend v st in
  fst (snd out) = with_backend (_backend (fst (snd out))) (fst st)
  /\ dicts (snd (snd out)) = dicts (snd st)
  /\ trace (snd (snd out)) = trace (snd st).
Proof.
  destruct st as [[mw wr ic b ck cf] w]. cbv zeta.
  unfold nn_setattr. py_unfold.
  setattr_cases; repeat split.
Qed.

Lemma nn_setattr_compiler_fn_frame (v : PyVal) (st : Wrapper * World HostState) :
  let out := nn_setattr h "_compiler_fn" _compiler_fn with_compiler_fn v st in
  fst (snd out) = with_compiler_fn (_compiler_fn (fst (snd out))) (fst st)
  /\ dicts (snd (snd out)) = dicts (snd st)
  /\ trace (snd (snd out)) = trace (snd st).
Proof.
  destruct st as [[mw wr ic b ck cf] w]. cbv zeta.
  unfold nn_setattr. py_unfold.
  setattr_cases; repeat split.
Qed.

(** An assignment that raises has kept the wrapper, or, for a Parameter
    (taken out of the instance dict and the submodules before it is
    registered), has left the name nowhere. *)
Lemma nn_setattr_backend_raise (v : PyVal) (st : Wrapper * World HostState) :
  let out := nn_setattr h "_backend" _backend with_backend v st in
  forall e : PyExn, fst out = Raise e ->
    (fst (snd out) = fst st \/ fst (snd out) = with_backend Absent (fst st))
    /\ (kind_of h v <> KParameter -> fst (snd out) = fst st).
Proof.
  destruct st as [[mw wr ic b ck cf] w]. cbv zeta.
  unfold nn_setattr. py_unfold.
  setattr_cases; intros exn Hexn; try discriminate;
    (split; [first [left; reflexivity|right; reflexivity]
            |intros Hne; first [reflexivity|contradiction]]).
Qed.

(** What [set_backend] does with a string: it assigns what the resolver
    returns, and raises what the resolver raises. *)
Lemma set_backend_str (s : string) (st : Wrapper * World HostState) :
  set_backend h (PyStr s) st =
  match get_backend_fn h s (snd st) with
  | (Ok fn, w') => nn_setattr h "_backend" _backend with_backend fn (fst st, w')
  | (Raise e, w') => (Raise e, (fst st, w'))
  end.
Proof.
  unfold set_backend. unfold bind, lift.
  destruct (get_backend_fn h s (snd st)) as [[fn|e] w']; reflexivity.
Qed.

(** What [set_backend] does with anything else. *)
Lemma set_backend_other (v : PyVal) (st : Wrapper * World HostState) :
  is_str v = false ->
  set_backend h v st =
  if callable h v then nn_setattr h "_backend" _backend with_backend v st
  else (Raise (invalid_backend h v), st).
Proof.
  intros Hv. unfold set_backend.
  destruct v; try discriminate; try reflexivity.
  destruct (callable h (PyObj o)); reflexivity.
Qed.

(** C7, as amended: a backend value that is neither a string nor callable
    is refused with the ValueError "backend for torch.compile must be a
    string or Callable: <value>" by [set_backend] on every host, and by
    [validate_backend] on a host that has [torch.compile]; for a string
    [set_backend] assigns what the resolver returns to [_backend] (and
    raises what the resolver raises); and a callable, or a resolved value,
    that is neither a Module nor a Parameter is stored as it is, as the
    [_backend] entry of the instance dict. *)
Theorem backend_type_checked :
  (forall v : PyVal, is_str v = false -> callable h v = false ->
     (forall st : Wrapper * World HostState, set_backend h v st = (Raise (invalid_backend h v), st))
     /\ (has_compile h = true ->
         forall w : World HostState, validate_backend h v w = (Raise (invalid_backend h v), w)))
  /\ (forall (s : string) (st : Wrapper * World HostState),
        set_backend h (PyStr s) st =
        match get_backend_fn h s (snd st) with
        | (Ok fn, w') => nn_setattr h "_backend" _backend with_backend fn (fst st, w')
        | (Raise e, w') => (Raise e, (fst st, w'))
        end)
  /\ (forall (s : string) (st : Wrapper * World HostState) (fn : PyVal) (w' : World HostState),
        get_backend_fn h s (snd st) = (Ok fn, w') ->
        kind_of h fn = KPlain ->
        unregistered (_backend (fst st)) = true ->
        set_backend h (PyStr s) st = (Ok tt, (with_backend (InDict fn) (fst st), w')))
  /\ (forall v : PyVal, callable h v = true -> kind_of h v = KPlain ->
        forall st : Wrapper * World HostState,
          unregistered (_backend (fst st)) = true ->
          set_backend h v st = (Ok tt, (with_backend (InDict v) (fst st), snd st))).
Proof.
  split; [|split; [|split]].
  - intros v Hs Hc. split.
    + intros st. rewrite (set_backend_other v st Hs), Hc. reflexivity.
    + intros Hsup w. unfold validate_backend, is_compile_supported. rewrite Hsup.
      destruct v; try discriminate; rewrite Hc; reflexivity.
  - apply set_backend_str.
  - intros s st fn w' Hres Hk Hu. rewrite set_backend_str, Hres.
    apply nn_setattr_backend_plain; assumption.
  - intros v Hc Hk st Hu.
    assert (Hs : is_str v = false) by (destruct v; try reflexivity; discriminate).
    rewrite (set_backend_other v st Hs), Hc. destruct st as [self w].
    apply nn_setattr_backend_plain; assumption.
Qed.

(** A construction that returns was given a config; the wrapper holds the
    config's backend where attribute assignment puts a value of its class,
    and no dict object and no entry of the log has changed. *)
Lemma init_returns (module : PyVal) (cfg : option CompileConfig) (w w' : World HostState)
    (self : Wrapper) :
  CompiledModuleWrapper_init h module cfg w = (Ok self, w') ->
  exists (c : CompileConfig) (place : Slot),
    cfg = Some c /\ has_compile h || negb (py_debug h) = true
    /\ self = MkWrapper module module false place (kwargs c) (InDict PyNone)
    /\ dicts w' = dicts w /\ trace w' = trace w
    /\ match kind_of h (backend c) with
       | KPlain => place = InDict (backend c) /\ w' = w
       | KModule => place = InModules (backend c) /\ w' = w
       | KParameter => place = InParameters (backend c)
       end.
Proof.
  unfold CompiledModuleWrapper_init, is_compile_supported. intros H.
  assert (Hsup : has_compile h || negb (py_debug h) = true).
  { destruct (py_debug h), (has_compile h); simpl in *; try reflexivity; discriminate. }
  destruct (py_debug h && negb (has_compile h)); [discriminate|].
  destruct cfg as [c|]; [|discriminate].
  revert H. unfold nn_setattr. py_unfold.
  destruct w as [ds hs tr].
  destruct (kind_of h (backend c)) eqn:Hk; simpl.
  - intros H. injection H as <- <-. exists c. eexists.
    split; [reflexivity|]. split; [exact Hsup|]. split; [reflexivity|].
    split; [reflexivity|]. split; [reflexivity|]. rewrite Hk. split; reflexivity.
  - intros H. injection H as <- <-. exists c. eexists.
    split; [reflexivity|]. split; [exact Hsup|]. split; [reflexivity|].
    split; [reflexivity|]. split; [reflexivity|]. rewrite Hk. split; reflexivity.
  - rewrite hasattr_fallback_unfold. simpl.
    destruct (host_getattr h module "_backend" hs) as [[v|e] hs']; simpl.
    + discriminate.
    + destruct (is_AttributeError e); simpl; [|discriminate].
      intros H. injection H as <- <-. exists c. eexists.
      split; [reflexivity|]. split; [exact Hsup|]. split; [reflexivity|].
      split; [reflexivity|]. split; [reflexivity|]. rewrite Hk. reflexivity.
Qed.

(** C10: without a config, [CompiledModuleWrapper(module)] raises for every
    module on every host: the AttributeError of [compile_config.backend] on
    None where the host has [torch.compile], the AssertionError (or, with
    assertions off, the same AttributeError) where it has not.  So a
    construction that succeeds was given a config; the wrapper it returns
    is uncompiled, wraps the module, has the config's dict as its options
    and no compiler function, and holds the config's backend where
    attribute assignment puts a value of its class; the construction
    changes no dict object and makes no call that is logged. *)
Theorem init_without_config_fails (module : PyVal) (w : World HostState) :
  (exists e : PyExn, CompiledModuleWrapper_init h module None w = (Raise e, w))
  /\ (has_compile h = true ->
      CompiledModuleWrapper_init h module None w
      = (Raise (AttributeError "'NoneType' object has no attribute 'backend'"), w))
  /\ (forall (cfg : option CompileConfig) (self : Wrapper) (w' : World HostState),
        CompiledModuleWrapper_init h module cfg w = (Ok self, w') ->
        exists (c : CompileConfig) (place : Slot),
          cfg = Some c /\ has_compile h || negb (py_debug h) = true
          /\ self = MkWrapper module module false place (kwargs c) (InDict PyNone)
          /\ dicts w' = dicts w /\ trace w' = trace w
          /\ match kind_of h (backend c) with
             | KPlain => place = InDict (backend c) /\ w' = w
             | KModule => place = InModules (backend c) /\ w' = w
             | KParameter => place = InParameters (backend c)
             end).
Proof.
  split; [|split].
  - unfold CompiledModuleWrapper_init, is_compile_supported.
    destruct (py_debug h && negb (has_compile h)); eexists; reflexivity.
  - unfold CompiledModuleWrapper_init, is_compile_supported.
    intros ->. rewrite andb_false_r. reflexivity.
  - intros cfg self w' H.
    destruct (init_returns module cfg w w' self H)
      as (c & place & Hcfg & Hsup & Hself & Hd & Ht & Hplace).
    exists c, place. repeat split; assumption.
Qed.

End Config.

Section Options.

Context {HostState : Type}.
Variable h : Host HostState.

(** [get_backend_fn] touches no dict object. *)
Lemma get_backend_fn_dicts (name : string) (w : World HostState) :
  dicts (snd (get_backend_fn h name w)) = dicts w.
Proof.
  rewrite get_backend_fn_unfold. simpl.
  destruct (import_module h _ _) as [[module|e] hs1]; [|reflexivity].
  destruct (host_getattr h module _ hs1) as [[v|e] hs2]; reflexivity.
Qed.

Lemma with_backend_same (self : Wrapper) : self = with_backend (_backend self) self.
Proof. destruct self; reflexivity. Qed.

(** [set_backend] changes nothing of the wrapper but the place and value
    of [_backend], and touches no dict object. *)
Lemma set_backend_frame (b : PyVal) (st : Wrapper * World HostState) :
  let out := set_backend h b st in
  dicts (snd (snd out)) = dicts (snd st)
  /\ fst (snd out) = with_backend (_backend (fst (snd out))) (fst st).
Proof.
  destruct (is_str b) eqn:Hb.
  - destruct b; try discriminate. cbv zeta. rewrite set_backend_str.
    pose proof (get_backend_fn_dicts s (snd st)) as Hd.
    destruct (get_backend_fn h s (snd st)) as [[fn|e] w']; simpl in Hd.
    + destruct (nn_setattr_backend_frame h fn (fst st, w')) as (Hf & Hdd & _).
      simpl in Hf, Hdd. split; [congruence|exact Hf].
    + simpl. split; [exact Hd|apply with_backend_same].
  - cbv zeta. rewrite (set_backend_other h b st Hb).
    destruct (callable h b).
    + destruct (nn_setattr_backend_frame h b st) as (Hf & Hdd & _).
      split; assumption.
    + simpl. split; [reflexivity|apply with_backend_same].
Qed.

(** When [set_backend] raises, the wrapper is as it was, unless the value
    to store (the value given, or what the name given resolves to) is a
    Parameter: then [_backend] may be left nowhere. *)
Lemma set_backend_raise (b : PyVal) (st st1 : Wrapper * World HostState) (e : PyExn) :
  set_backend h b st = (Raise e, st1) ->
  (fst st1 = fst st \/ fst st1 = with_backend Absent (fst st))
  /\ ((forall v : PyVal,
         b = v \/ (exists (s : string) (w' : World HostState),
                     b = PyStr s /\ get_backend_fn h s (snd st) = (Ok v, w')) ->
         kind_of h v <> KParameter) ->
      fst st1 = fst st).
Proof.
  destruct (is_str b) eqn:Hb.
  - destruct b; try discriminate. rewrite set_backend_str.
    destruct (get_backend_fn h s (snd st)) as [[fn|e'] w'] eqn:Hres.
    + intros Hset.
      destruct (nn_setattr_backend_raise h fn (fst st, w') e) as [H1 H2];
        [rewrite Hset; reflexivity|].
      rewrite Hset in H1, H2. simpl in H1, H2. split; [exact H1|].
      intros Hv. apply H2, Hv. right. exists s, w'. split; [reflexivity|exact Hres].
    + intros [= <- <-]. split; [left; reflexivity|reflexivity].
  - rewrite (set_backend_other h b st Hb). destruct (callable h b).
    + intros Hset.
      destruct (nn_setattr_backend_raise h b st e) as [H1 H2];
        [rewrite Hset; reflexivity|].
      rewrite Hset in H1, H2. simpl in H1, H2. split; [exact H1|].
      intros Hv. apply H2, Hv. left. reflexivity.
    + intros [= <- <-]. split; [left; reflexivity|reflexivity].
Qed.

(** [set_torch_compile_kwargs] on a dict that has a "backend" entry, step
    by step: the entry goes to [set_backend]; if that returns, the entry is
    deleted from the dict that was passed, and what that dict then holds is
    merged into the dict of the stored options. *)
Lemma set_torch_compile_kwargs_backend (kw : positive) (self : Wrapper)
    (w : World HostState) (d : gmap string PyVal) (b : PyVal) :
  dicts w !! kw = Some d ->
  d !! "backend" = Some b ->
  set_torch_compile_kwargs h kw (self, w) =
  match set_backend h b (self, w) with
  | (Raise e, st1) => (Raise e, st1)
  | (Ok _, (self1, w1)) =>
      let passed := delete "backend" d in
      let ds1 := <[kw := passed]> (dicts w) in
      match ds1 !! _compile_kwargs self1 with
      | Some stored =>
          (Ok tt, (self1, MkWorld (<[_compile_kwargs self1 := passed ∪ stored]> ds1)
                                  (host_st w1) (trace w1)))
      | None =>
          (Raise (OtherError "SystemError" "no dict object at this address"),
           (self1, MkWorld ds1 (host_st w1) (trace w1)))
      end
  end.
Proof.
  intros Hkw Hb.
  pose proof (set_backend_frame b (self, w)) as [Hd _]. simpl in Hd.
  unfold set_torch_compile_kwargs, dict_del, dict_update.
  unfold bind at 1. unfold lift at 1, dict_get at 1. simpl. rewrite Hkw, Hb.
  unfold bind at 1. unfold bind at 1.
  destruct (set_backend h b (self, w)) as [[[]|e] [self1 w1]]; [|reflexivity].
  destruct w1 as [ds1 hs1 tr1]. simpl in Hd. subst ds1.
  py_unfold. rewrite Hkw, Hb. simpl. rewrite lookup_insert_eq. cbn.
  destruct (<[kw:=delete "backend" d]> (dicts w) !! _compile_kwargs self1); reflexivity.
Qed.

(** Without a "backend" entry nothing is routed or deleted. *)
Lemma set_torch_compile_kwargs_plain (kw : positive) (self : Wrapper)
    (w : World HostState) (d stored : gmap string PyVal) :
  dicts w !! kw = Some d ->
  d !! "backend" = None ->
  dicts w !! _compile_kwargs self = Some stored ->
  set_torch_compile_kwargs h kw (self, w)
  = (Ok tt, (self, MkWorld (<[_compile_kwargs self := d ∪ stored]> (dicts w))
                           (host_st w) (trace w))).
Proof.
  intros Hkw Hb Hs.
  unfold set_torch_compile_kwargs, dict_update. py_unfold.
  rewrite Hkw, Hb. simpl. rewrite Hkw, Hs. reflexivity.
Qed.


(** C9: when [set_torch_compile_kwargs] returns on a dict that had a
    "backend" entry, the dict object the caller passed (the object itself,
    at its address) has lost that entry and kept its other entries. *)
Theorem set_torch_compile_kwargs_mutates_caller (kw : positive) (self : Wrapper)
    (w : World HostState) (d : gmap string PyVal) (b : PyVal)
    (st' : Wrapper * World HostState) :
  dicts w !! kw = Some d ->
  d !! "backend" = Some b ->
  set_torch_compile_kwargs h kw (self, w) = (Ok tt, st') ->
  dicts (snd st') !! kw = Some (delete "backend" d)
  /\ delete "backend" d !! "backend" = None
  /\ (forall k : string, k <> "backend" -> delete "backend" d !! k = d !! k).
Proof.
  intros Hkw Hb Hrun.
  rewrite (set_torch_compile_kwargs_backend kw self w d b Hkw Hb) in Hrun.
  split; [|split; [apply lookup_delete_eq|intros k Hk; apply lookup_delete_ne; congruence]].
  destruct (set_backend h b (self, w)) as [[[]|e] [self1 w1]]; [|discriminate].
  simpl in Hrun.
  destruct (decide (_compile_kwargs self1 = kw)) as [Heq|Hne].
  - rewrite Heq, lookup_insert_eq in Hrun.
    injection Hrun as <-. simpl.
    rewrite lookup_insert_eq. f_equal. apply (idemp_L (∪)).
  - destruct (<[kw:=delete "backend" d]> (dicts w) !! _compile_kwargs self1);
      [|discriminate].
    injection Hrun as <-. simpl.
    rewrite lookup_insert_ne by exact Hne. apply lookup_insert_eq.
Qed.

End Options.

Section Lazy.

Context {HostState : Type}.
Variable h : Host HostState.

Lemma compile_calls_app (tr1 tr2 : list Event) :
  compile_calls (tr1 ++ tr2) = compile_calls tr1 + compile_calls tr2.
Proof. unfold compile_calls. rewrite List.filter_app, length_app. reflexivity. Qed.


Lemma compile_calls_delegate_events (callee : PyVal)
    (calls : list (list PyVal * list (string * PyVal))) :
  compile_calls (delegate_events callee calls) = 0.
Proof. induction calls as [|c calls IH]; [reflexivity|exact IH]. Qed.

Lemma compile_event_counts (self : Wrapper) (r : CompileRequest) :
  compile_calls [compile_event self r] = 1.
Proof. destruct r; reflexivity. Qed.

(** The last line of [forward]: one call of the wrapped object, with the
    arguments as given; its outcome is the outcome, and the wrapper and the
    dict objects stay as they are. *)
Lemma delegate_unfold (args : list PyVal) (kw : list (string * PyVal))
    (self : Wrapper) (w : World HostState) :
  delegate h args kw (self, w) =
  let (r, hs) := host_call h (wrapped self) args kw (host_st w) in
  (r, (self, MkWorld (dicts w) hs (trace w ++ [EvDelegate (wrapped self) args kw]))).
Proof.
  unfold delegate. py_unfold.
  destruct (host_call h (wrapped self) args kw (host_st w)); reflexivity.
Qed.

Lemma delegate_wrapper (args : list PyVal) (kw : list (string * PyVal))
    (st : Wrapper * World HostState) :
  fst (snd (delegate h args kw st)) = fst st.
Proof.
  destruct st as [self w]. rewrite delegate_unfold.
  destruct (host_call h (wrapped self) args kw (host_st w)); reflexivity.
Qed.

(** A compiled wrapper only delegates. *)
Lemma forward_compiled (args : list PyVal) (kw : list (string * PyVal))
    (st : Wrapper * World HostState) :
  _is_compiled (fst st) = true -> forward h args kw st = delegate h args kw st.
Proof.
  intros Hc. unfold forward, is_compiled. py_unfold. rewrite Hc. simpl.
  destruct st; reflexivity.
Qed.

(** An uncompiled wrapper compiles first, and delegates if that returned. *)
Lemma forward_uncompiled (args : list PyVal) (kw : list (string * PyVal))
    (st : Wrapper * World HostState) :
  _is_compiled (fst st) = false ->
  forward h args kw st =
  match compile_step h st with
  | (Ok _, st1) => delegate h args kw st1
  | (Raise e, st1) => (Raise e, st1)
  end.
Proof.
  intros Hc. unfold forward, is_compiled. py_unfold. rewrite Hc. simpl.
  destruct (compile_step h st) as [[[]|e] st1]; reflexivity.
Qed.

(** Reading one of the two attributes is at most one [getattr] on the
    wrapped object. *)
Lemma read_slot_unfold (name : string) (slot : Wrapper -> Slot) (self : Wrapper)
    (w : World HostState) :
  read_slot h name slot (self, w) =
  let (r, hs) := read_at h name (slot self) self (host_st w) in
  (r, (self, MkWorld (dicts w) hs (trace w))).
Proof.
  unfold read_slot. py_unfold.
  destruct (read_at h name (slot self) self (host_st w)); reflexivity.
Qed.

(** The compilation step: the reads, then the compilation call. *)
Lemma compile_step_unfold (self : Wrapper) (w : World HostState) :
  compile_step h (self, w) =
  match compile_request h self w with
  | (Raise e, hs) => (Raise e, (self, MkWorld (dicts w) hs (trace w)))
  | (Ok r, hs0) =>
      let (res, hs) := compile_call h self r hs0 in
      let w1 := MkWorld (dicts w) hs (trace w ++ [compile_event self r]) in
      match res with
      | Ok m => (Ok tt, (with_is_compiled true (with_wrapped m self), w1))
      | Raise e => (Raise e, (self, w1))
      end
  end.
Proof.
  unfold compile_step, compile_request.
  unfold bind at 1. rewrite read_slot_unfold.
  destruct (read_at h "_compiler_fn" (_compiler_fn self) self (host_st w))
    as [[fn|e] hs1]; [|reflexivity].
  assert (Hfn : forall st : Wrapper * World HostState,
    st = (self, MkWorld (dicts w) hs1 (trace w)) ->
    bind (bind (read_slot h "_compiler_fn" _compiler_fn)
            (fun fn0 => bind get_self (fun self0 =>
               bind (lift (log (EvCompilerFn fn0 (wrapped self0)))) (fun _ =>
               bind (lift (host_op (host_call h fn0 [wrapped self0] [])))
                    (fun m => set_self (with_wrapped m))))))
         (fun _ => set_self (with_is_compiled true)) st
    = match read_at h "_compiler_fn" (_compiler_fn self) self hs1 with
      | (Raise e, hs2) => (Raise e, (self, MkWorld (dicts w) hs2 (trace w)))
      | (Ok fn0, hs2) =>
          let (res, hs) := host_call h fn0 [wrapped self] [] hs2 in
          let w1 := MkWorld (dicts w) hs (trace w ++ [EvCompilerFn fn0 (wrapped self)]) in
          match res with
          | Ok m => (Ok tt, (with_is_compiled true (with_wrapped m self), w1))
          | Raise e => (Raise e, (self, w1))
          end
      end).
  { intros st ->. unfold bind at 1. unfold bind at 1. rewrite read_slot_unfold. simpl.
    destruct (read_at h "_compiler_fn" (_compiler_fn self) self hs1) as [[fn0|e] hs2];
      [|reflexivity].
    py_unfold. destruct (host_call h fn0 [wrapped self] [] hs2) as [[m|e] hs]; reflexivity. }
  destruct fn; try (rewrite (Hfn _ eq_refl);
    destruct (read_at h "_compiler_fn" (_compiler_fn self) self hs1) as [[fn0|e] hs2];
    reflexivity).
  clear Hfn. unfold bind at 1. unfold bind at 1. unfold get_self at 1. simpl.
  unfold bind at 1. rewrite read_slot_unfold. simpl.
  destruct (read_at h "_backend" (_backend self) self hs1) as [[b|e] hs2]; [|reflexivity].
  py_unfold.
  destruct (dicts w !! _compile_kwargs self) as [options|]; [|reflexivity]. simpl.
  destruct (options !! "backend"); [reflexivity|]. simpl.
  destruct (torch_compile h (wrapped self) b options hs2) as [[m|e] hs]; reflexivity.
Qed.

(** A compilation step that returns has made its request, one compilation
    call, stored what that returned as the wrapped object and set the
    flag. *)
Lemma compile_step_ok (self : Wrapper) (w : World HostState)
    (st1 : Wrapper * World HostState) :
  compile_step h (self, w) = (Ok tt, st1) ->
  exists (r : CompileRequest) (hs0 : HostState) (m : PyVal) (hs : HostState),
    compile_request h self w = (Ok r, hs0)
    /\ compile_call h self r hs0 = (Ok m, hs)
    /\ st1 = (with_is_compiled true (with_wrapped m self),
              MkWorld (dicts w) hs (trace w ++ [compile_event self r])).
Proof.
  rewrite compile_step_unfold.
  destruct (compile_request h self w) as [[r|e] hs0]; [|discriminate].
  destruct (compile_call h self r hs0) as [[m|e] hs] eqn:Hcall; [|discriminate].
  intros H. exists r, hs0, m, hs. repeat split; congruence.
Qed.

(** A compilation step that raises leaves the wrapper and the dict objects
    as they were, and has logged the compilation call if it made one. *)
Lemma compile_step_raise (self : Wrapper) (w : World HostState) (e : PyExn)
    (st1 : Wrapper * World HostState) :
  compile_step h (self, w) = (Raise e, st1) ->
  fst st1 = self
  /\ dicts (snd st1) = dicts w
  /\ exists new : list Event,
       trace (snd st1) = (trace w ++ new)%list
       /\ Forall (fun ev => is_compile_event ev = true) new
       /\ length new <= 1.
Proof.
  rewrite compile_step_unfold.
  destruct (compile_request h self w) as [[r|e'] hs0].
  - destruct (compile_call h self r hs0) as [[m|e'] hs]; [discriminate|].
    intros H. injection H as _ <-. repeat split.
    exists [compile_event self r]. split; [reflexivity|]. split; [|simpl; lia].
    constructor; [destruct r; reflexivity|constructor].
  - intros H. injection H as _ <-. repeat split.
    exists []. simpl. rewrite app_nil_r. split; [reflexivity|]. split; [constructor|lia].
Qed.



(** Calls of a compiled wrapper are calls of the wrapped object. *)
Lemma run_forwards_compiled (calls : list (list PyVal * list (string * PyVal)))
    (st : Wrapper * World HostState) :
  _is_compiled (fst st) = true -> run_forwards h calls st = run_delegates h calls st.
Proof.
  revert st. induction calls as [|[args kw] calls IH]; intros st Hc; [reflexivity|].
  simpl. rewrite (forward_compiled args kw st Hc). f_equal.
  apply IH. rewrite delegate_wrapper. exact Hc.
Qed.

(** What a run of direct calls amounts to: the outcomes are the host's, in
    order; the wrapper never changes; the log grows by one [EvDelegate] per
    call, with the arguments of that call. *)
Lemma run_delegates_spec (calls : list (list PyVal * list (string * PyVal)))
    (self : Wrapper) (w : World HostState) :
  let outs := run_delegates h calls (self, w) in
  List.map fst outs = host_results h (wrapped self) calls (host_st w)
  /\ Forall (fun out => fst (snd out) = self) outs
  /\ fst (final_state (self, w) outs) = self
  /\ trace (snd (final_state (self, w) outs))
     = (trace w ++ delegate_events (wrapped self) calls)%list
  /\ dicts (snd (final_state (self, w) outs)) = dicts w.
Proof.
  revert w. induction calls as [|[args kw] calls IH]; intros w; cbv zeta.
  - simpl. rewrite app_nil_r. repeat split. constructor.
  - simpl. rewrite delegate_unfold.
    destruct (host_call h (wrapped self) args kw (host_st w)) as [r hs]. simpl.
    specialize (IH (MkWorld (dicts w) hs (trace w ++ [EvDelegate (wrapped self) args kw]))).
    cbv zeta in IH. destruct IH as (IH1 & IH2 & IH3 & IH4 & IH5). simpl in *.
    rewrite IH1, IH4, <- app_assoc. repeat split; try assumption.
    constructor; [reflexivity|assumption].
Qed.

(** The first call of an uncompiled wrapper whose compilation step returns,
    and the calls after it, are direct calls of the compiled object. *)
Lemma run_forwards_first (c : list PyVal * list (string * PyVal))
    (calls : list (list PyVal * list (string * PyVal)))
    (st0 st1 : Wrapper * World HostState) :
  _is_compiled (fst st0) = false ->
  compile_step h st0 = (Ok tt, st1) ->
  run_forwards h (c :: calls) st0 = run_delegates h (c :: calls) st1
  /\ _is_compiled (fst st1) = true.
Proof.
  intros Hc Hstep. destruct st0 as [self w].
  destruct (compile_step_ok self w st1 Hstep) as (r & hs0 & m & hs & _ & _ & ->).
  split; [|reflexivity].
  destruct c as [args kw]. simpl.
  rewrite (forward_uncompiled args kw (self, w) Hc), Hstep. f_equal.
  apply run_forwards_compiled. rewrite delegate_wrapper. reflexivity.
Qed.

(** The wrapper after [wrapper_getattr] is the wrapper before. *)
Lemma wrapper_getattr_wrapper (base_attr : string -> option PyVal) (name : string)
    (st : Wrapper * World HostState) :
  fst (snd (wrapper_getattr h base_attr name st)) = fst st.
Proof.
  unfold wrapper_getattr, getattr_fallback. py_unfold.
  destruct (own_attr base_attr (fst st) name) as [[v|field]|].
  - reflexivity.
  - destruct (host_getattr h (wrapped (fst st)) field _) as [[v|e] hs]; [reflexivity|].
    destruct (is_AttributeError e); [|reflexivity]. simpl.
    destruct (host_getattr h _ _ _); reflexivity.
  - destruct (host_getattr h _ _ _); reflexivity.
Qed.

Lemma same_module_bind {A B : Type} (m : M (Wrapper * World HostState) A)
    (k : A -> M (Wrapper * World HostState) B) :
  (forall st, same_module (fst st) (fst (snd (m st)))) ->
  (forall a st, same_module (fst st) (fst (snd (k a st)))) ->
  forall st, same_module (fst st) (fst (snd (bind m k st))).
Proof.
  intros Hm Hk st. unfold bind. specialize (Hm st).
  destruct (m st) as [[a|e] st1]; [|exact Hm].
  specialize (Hk a st1). destruct Hm as [Hm1 Hm2], Hk as [Hk1 Hk2].
  simpl in *. split; congruence.
Qed.

Lemma same_module_lift {A : Type} (m : M (World HostState) A) (st : Wrapper * World HostState) :
  same_module (fst st) (fst (snd (lift m st))).
Proof. unfold lift. destruct (m (snd st)). split; reflexivity. Qed.

Lemma same_module_set_backend (b : PyVal) (st : Wrapper * World HostState) :
  same_module (fst st) (fst (snd (set_backend h b st))).
Proof.
  pose proof (set_backend_frame h b st) as [_ Hself]. cbv zeta in Hself.
  rewrite Hself. split; reflexivity.
Qed.

Lemma same_module_set_compiler_fn (fn : PyVal) (st : Wrapper * World HostState) :
  same_module (fst st) (fst (snd (set_compiler_fn h fn st))).
Proof.
  destruct (nn_setattr_compiler_fn_frame h fn st) as [Hself _].
  unfold set_compiler_fn. rewrite Hself. split; reflexivity.
Qed.

(** [set_torch_compile_kwargs] writes no field of the wrapper but
    [_backend]. *)
Lemma set_torch_compile_kwargs_wrapper (kw : positive) (st : Wrapper * World HostState) :
  same_module (fst st) (fst (snd (set_torch_compile_kwargs h kw st))).
Proof.
  revert st. unfold set_torch_compile_kwargs.
  apply same_module_bind; [intros st; apply same_module_lift|].
  intros d. apply same_module_bind.
  - destruct (d !! "backend") as [b|]; [|split; reflexivity].
    apply same_module_bind; [apply same_module_set_backend|].
    intros _ st. apply same_module_lift.
  - intros _. apply same_module_bind; [split; reflexivity|].
    intros self st. apply same_module_lift.
Qed.

(** The operations other than a call leave the wrapped object and the flag
    alone. *)
Lemma run_op_frame (op : Op) (st : Wrapper * World HostState) :
  (forall args kw, op <> CallForward args kw) ->
  wrapped (fst (run_op h op st)) = wrapped (fst st)
  /\ _is_compiled (fst (run_op h op st)) = _is_compiled (fst st).
Proof.
  intros Hop. destruct op as [args kw|b|kw|fn|base_attr name]; simpl.
  - exfalso. exact (Hop args kw eq_refl).
  - apply same_module_set_backend.
  - apply set_torch_compile_kwargs_wrapper.
  - apply same_module_set_compiler_fn.
  - rewrite wrapper_getattr_wrapper. split; reflexivity.
Qed.

(** The compiled state is terminal: no operation changes the wrapped object
    or clears the flag. *)
Lemma compiled_is_terminal (op : Op) (st : Wrapper * World HostState) :
  _is_compiled (fst st) = true ->
  _is_compiled (fst (run_op h op st)) = true
  /\ wrapped (fst (run_op h op st)) = wrapped (fst st).
Proof.
  intros Hc. destruct op as [args kw|b|kw|fn|base_attr name].
  - simpl. rewrite (forward_compiled args kw st Hc), delegate_wrapper. split; [exact Hc|reflexivity].
  - destruct (run_op_frame (CallSetBackend b) st) as [Hw Hi]; [discriminate|].
    rewrite Hi, Hw. split; [exact Hc|reflexivity].
  - destruct (run_op_frame (CallSetKwargs kw) st) as [Hw Hi]; [discriminate|].
    rewrite Hi, Hw. split; [exact Hc|reflexivity].
  - destruct (run_op_frame (CallSetCompilerFn fn) st) as [Hw Hi]; [discriminate|].
    rewrite Hi, Hw. split; [exact Hc|reflexivity].
  - destruct (run_op_frame (CallGetattr base_attr name) st) as [Hw Hi]; [discriminate|].
    rewrite Hi, Hw. split; [exact Hc|reflexivity].
Qed.

(** C1, as amended: for an uncompiled wrapper whose compilation step
    returns at the first call, every sequence of N >= 1 calls of [forward]
    makes exactly one compilation call; the log is that call (the request
    the step made) followed by one call of the compiled object per call of
    [forward], with the arguments of that call; what the callers get is
    what those calls return or raise; and after every call [is_compiled] is
    true and the wrapped object is the compiled one. *)
Theorem forward_compiles_once (c : list PyVal * list (string * PyVal))
    (calls : list (list PyVal * list (string * PyVal)))
    (st0 st1 : Wrapper * World HostState) :
  _is_compiled (fst st0) = false ->
  compile_step h st0 = (Ok tt, st1) ->
  let outs := run_forwards h (c :: calls) st0 in
  let final := final_state st0 outs in
  compile_calls (trace (snd final)) = S (compile_calls (trace (snd st0)))
  /\ (exists (r : CompileRequest) (hs0 : HostState),
        compile_request h (fst st0) (snd st0) = (Ok r, hs0)
        /\ trace (snd final)
           = (trace (snd st0) ++ [compile_event (fst st0) r]
              ++ delegate_events (wrapped (fst st1)) (c :: calls))%list)
  /\ List.map fst outs = host_results h (wrapped (fst st1)) (c :: calls) (host_st (snd st1))
  /\ Forall (fun out => _is_compiled (fst (snd out)) = true
                        /\ wrapped (fst (snd out)) = wrapped (fst st1)) outs.
Proof.
  intros Hc Hstep. cbv zeta.
  destruct (run_forwards_first c calls st0 st1 Hc Hstep) as [-> Hc1].
  destruct st0 as [self w].
  destruct (compile_step_ok self w st1 Hstep) as (r & hs0 & m & hs & Hreq & _ & ->).
  set (self1 := with_is_compiled true (with_wrapped m self)) in *.
  set (w1 := MkWorld (dicts w) hs (trace w ++ [compile_event self r])) in *.
  destruct (run_delegates_spec (c :: calls) self1 w1) as (Hres & Hall & _ & Htr & _).
  assert (Hfinal : final_state (self, w) (run_delegates h (c :: calls) (self1, w1))
                   = final_state (self1, w1) (run_delegates h (c :: calls) (self1, w1))).
  { destruct c. reflexivity. }
  rewrite Hfinal, Htr. simpl trace. simpl fst. simpl snd.
  split; [|split; [|split]].
  - rewrite !compile_calls_app, compile_event_counts, compile_calls_delegate_events. lia.
  - exists r, hs0. split; [exact Hreq|]. rewrite <- app_assoc. reflexivity.
  - exact Hres.
  - eapply Forall_impl; [exact Hall|]. intros out ->. split; reflexivity.
Qed.


(** C8: for a name that attribute lookup does not find on the wrapper
    itself, [getattr(wrapper, name)] is [getattr] of the object wrapped at
    that moment.  That object is the module given to [__init__] for as long
    as the wrapper is uncompiled; the operation that sets [is_compiled] is a
    call of [forward], and it stores what the compilation call it requested
    returned as the wrapped object; once [is_compiled] is true no operation
    changes the wrapped object or the flag. *)
Theorem getattr_forwards_to_wrapped (base_attr : string -> option PyVal) (name : string)
    (self : Wrapper) (w : World HostState) :
  own_attr base_attr self name = None ->
  wrapper_getattr h base_attr name (self, w)
  = (let (r, hs) := host_getattr h (wrapped self) name (host_st w) in
     (r, (self, MkWorld (dicts w) hs (trace w))))
  /\ (forall (module : PyVal) (c : CompileConfig) (w0 w0' : World HostState) (self0 : Wrapper),
        CompiledModuleWrapper_init h module (Some c) w0 = (Ok self0, w0') ->
        wrapped self0 = module /\ _is_compiled self0 = false)
  /\ (forall op : Op,
        _is_compiled self = false ->
        _is_compiled (fst (run_op h op (self, w))) = false ->
        wrapped (fst (run_op h op (self, w))) = wrapped self)
  /\ (forall op : Op,
        _is_compiled self = false ->
        _is_compiled (fst (run_op h op (self, w))) = true ->
        exists (args : list PyVal) (kw : list (string * PyVal))
               (r : CompileRequest) (hs0 : HostState) (m : PyVal) (hs : HostState),
          op = CallForward args kw
          /\ compile_request h self w = (Ok r, hs0)
          /\ compile_call h self r hs0 = (Ok m, hs)
          /\ wrapped (fst (run_op h op (self, w))) = m)
  /\ (forall op : Op,
        _is_compiled self = true ->
        _is_compiled (fst (run_op h op (self, w))) = true
        /\ wrapped (fst (run_op h op (self, w))) = wrapped self).
Proof.
  intros Hown.
  assert (Hfwd : forall args kw,
    _is_compiled self = false ->
    (_is_compiled (fst (snd (forward h args kw (self, w)))) = false
     /\ wrapped (fst (snd (forward h args kw (self, w)))) = wrapped self)
    \/ (_is_compiled (fst (snd (forward h args kw (self, w)))) = true
        /\ exists (r : CompileRequest) (hs0 : HostState) (m : PyVal) (hs : HostState),
             compile_request h self w = (Ok r, hs0)
             /\ compile_call h self r hs0 = (Ok m, hs)
             /\ wrapped (fst (snd (forward h args kw (self, w)))) = m)).
  { intros args kw Hc. rewrite (forward_uncompiled args kw (self, w) Hc).
    destruct (compile_step h (self, w)) as [[[]|e] st1] eqn:Hstep.
    - right. destruct (compile_step_ok self w st1 Hstep)
        as (r & hs0 & m & hs & Hreq & Hcall & ->).
      rewrite delegate_wrapper. split; [reflexivity|].
      exists r, hs0, m, hs. split; [exact Hreq|]. split; [exact Hcall|reflexivity].
    - left. simpl. rewrite (proj1 (compile_step_raise self w e st1 Hstep)).
      split; [exact Hc|reflexivity]. }
  split; [|split; [|split; [|split]]].
  - unfold wrapper_getattr, getattr_fallback. py_unfold. rewrite Hown. simpl.
    destruct (host_getattr h (wrapped self) name (host_st w)); reflexivity.
  - intros module c w0 w0' self0 Hinit.
    destruct (init_returns h module (Some c) w0 w0' self0 Hinit)
      as (c' & place & _ & _ & -> & _).
    split; reflexivity.
  - intros op Hc Hafter.
    destruct op as [args kw|b|kw|fn|base name'];
      try (apply run_op_frame; discriminate).
    simpl in *. destruct (Hfwd args kw Hc) as [[_ Hw]|[Ht _]]; [exact Hw|congruence].
  - intros op Hc Hafter.
    destruct op as [args kw|b|kw|fn|base name'].
    2-5: match goal with
         | |- context [run_op h ?op _] =>
             destruct (run_op_frame op (self, w)) as [_ Hi]; [discriminate|];
             rewrite Hi in Hafter; simpl in Hafter; congruence
         end.
    simpl in *.
    destruct (Hfwd args kw Hc) as [[Hf _]|[_ (r & hs0 & m & hs & Hreq & Hcall & Hw)]];
      [congruence|].
    exists args, kw, r, hs0, m, hs. repeat split; assumption.
  - intros op Hc. apply (compiled_is_terminal op (self, w) Hc).
Qed.

End Lazy.

(** ** The theorems at concrete inputs *)

(** C1, as stated, fails where the compilation call raises: two calls of
    [forward] on [failing_host] both raise, make two compilation calls, and
    leave [is_compiled] false. *)
Lemma forward_retries_failed_compile :
  let outs := run_forwards failing_host [([], []); ([], [])] demo_state in
  List.map fst outs
  = [Raise (OtherError "RuntimeError" "compilation failed");
     Raise (OtherError "RuntimeError" "compilation failed")]
  /\ compile_calls (trace (snd demo_state)) = 0
  /\ compile_calls (trace (snd (final_state demo_state outs))) = 2
  /\ List.map (fun out => _is_compiled (fst (snd out))) outs = [false; false].
Proof. vm_compute. repeat split. Qed.

Lemma forward_compiles_once_witness :
  _is_compiled (fst demo_state) = false
  /\ compile_step demo_host demo_state = (Ok tt, demo_compiled_state)
  /\ compile_calls (trace (snd (final_state demo_state
                                  (run_forwards demo_host demo_calls demo_state)))) = 1
  /\ List.map fst (run_forwards demo_host demo_calls demo_state)
     = [Ok (PyInt 1); Ok (PyInt 2)].
Proof.
  split; [reflexivity|]. split; [reflexivity|].
  pose proof (forward_compiles_once demo_host ([], []) [([PyInt 1], [("scale", PyInt 2)])]
                demo_state demo_compiled_state eq_refl eq_refl) as (H1 & _ & H3 & _).
  split; [exact H1|exact H3].
Defined.





(** C4, as stated, fails for every name without a dot, the names of the
    built-in backends among them: the module path is the empty string,
    which [importlib.import_module] refuses with the ValueError "Empty
    module name"; that is not an ImportError, so it is not replaced by the
    descriptive message. *)
Lemma get_backend_fn_empty_module_name :
  module_name_of "inductor" = ""
  /\ import_module demo_host "" 0 = (Raise (ValueError "Empty module name"), 0)
  /\ get_backend_fn demo_host "inductor" (demo_world ∅)
     = (Raise (ValueError "Empty module name"),
        MkWorld (dicts (demo_world ∅)) 0 [EvImport ""])
  /\ ValueError "Empty module name"
     <> ValueError "Could not import module  for torch.compile backend.".
Proof. repeat split. discriminate. Qed.

Lemma get_backend_fn_resolves_witness :
  get_backend_fn demo_host "my.pkg.fn" (demo_world ∅)
  = (Ok demo_backend_fn, MkWorld (dicts (demo_world ∅)) 1 [EvImport "my.pkg"])
  /\ get_backend_fn demo_host "no.such.fn" (demo_world ∅)
     = (Raise (ValueError "Could not import module no.such for torch.compile backend."),
        MkWorld (dicts (demo_world ∅)) 0 [EvImport "no.such"]).
Proof.
  split.
  - exact (proj1 (get_backend_fn_resolves demo_host) "my.pkg" "fn" (demo_world ∅)
             demo_package 1 demo_backend_fn 1 eq_refl eq_refl eq_refl).
  - exact (proj1 (proj1 (proj2 (get_backend_fn_resolves demo_host)) "no.such.fn"
                    (demo_world ∅)
                    (ModuleNotFoundError "No module named no.such") 0 eq_refl eq_refl)).
Defined.

Lemma validate_enabled_unsupported_witness :
  has_compile old_host = false
  /\ validate_enabled old_host true (demo_world ∅) = (Raise unsupported, demo_world ∅)
  /\ CompileConfig_new old_host {[ "enabled" := PyBool true ]} (demo_world ∅)
     = (Raise unsupported, demo_world ∅).
Proof.
  split; [reflexivity|].
  pose proof (validate_enabled_unsupported old_host eq_refl) as (H1 & H2 & _).
  split; [exact (H1 (demo_world ∅))|].
  exact (H2 {[ "enabled" := PyBool true ]} (demo_world ∅) eq_refl).
Defined.

Lemma get_compile_config_defaults_witness :
  ({[ "train_batch_size" := PyInt 8 ]} : gmap string PyVal) !! COMPILE_CONFIG = None
  /\ exists (c : CompileConfig) (w' : World nat),
       get_compile_config demo_host {[ "train_batch_size" := PyInt 8 ]} (demo_world ∅)
       = (Ok c, w')
       /\ enabled c = false
       /\ backend c = PyStr "inductor"
       /\ dicts w' !! kwargs c = Some ∅.
Proof.
  assert (Hp : ({[ "train_batch_size" := PyInt 8 ]} : gmap string PyVal) !! COMPILE_CONFIG
               = None) by reflexivity.
  split; [exact Hp|].
  destruct (get_compile_config_defaults demo_host {[ "train_batch_size" := PyInt 8 ]}
              (demo_world ∅) Hp) as (c & w' & H1 & H2 & H3 & H4 & _).
  exists c, w'. repeat split; assumption.
Defined.

(** C7, as stated, fails at validation time on a host without
    [torch.compile]: [validate_backend] returns the value unchecked. *)
Lemma validate_backend_skipped_without_compile :
  is_str (PyInt 5) = false
  /\ callable old_host (PyInt 5) = false
  /\ validate_backend old_host (PyInt 5) (demo_world ∅) = (Ok (PyInt 5), demo_world ∅).
Proof. repeat split. Qed.

Lemma backend_type_checked_witness :
  is_str (PyInt 5) = false
  /\ callable demo_host (PyInt 5) = false
  /\ has_compile demo_host = true
  /\ callable demo_host demo_backend_fn = true
  /\ set_backend demo_host (PyInt 5) demo_state
     = (Raise (invalid_backend demo_host (PyInt 5)), demo_state)
  /\ validate_backend demo_host (PyInt 5) (demo_world ∅)
     = (Raise (invalid_backend demo_host (PyInt 5)), demo_world ∅)
  /\ kind_of demo_host demo_backend_fn = KPlain
  /\ unregistered (_backend demo_wrapper) = true
  /\ set_backend demo_host demo_backend_fn demo_state
     = (Ok tt, (with_backend (InDict demo_backend_fn) demo_wrapper, demo_world ∅))
  /\ set_backend demo_host (PyStr "my.pkg.fn") demo_state
     = (Ok tt, (with_backend (InDict demo_backend_fn) demo_wrapper,
                MkWorld (dicts (demo_world ∅)) 1 [EvImport "my.pkg"])).
Proof.
  split; [reflexivity|]. split; [reflexivity|]. split; [reflexivity|].
  split; [reflexivity|].
  pose proof (backend_type_checked demo_host) as (H1 & _ & H3 & H4).
  destruct (H1 (PyInt 5) eq_refl eq_refl) as [Hset Hval].
  split; [exact (Hset demo_state)|].
  split; [exact (Hval eq_refl (demo_world ∅))|].
  split; [reflexivity|]. split; [reflexivity|].
  split; [exact (H4 demo_backend_fn eq_refl eq_refl demo_state eq_refl)|].
  exact (H3 "my.pkg.fn" demo_state demo_backend_fn
            (MkWorld (dicts (demo_world ∅)) 1 [EvImport "my.pkg"]) eq_refl eq_refl eq_refl).
Defined.

Lemma getattr_forwards_to_wrapped_witness :
  own_attr (fun _ => None) demo_wrapper "weight" = None
  /\ wrapper_getattr demo_host (fun _ => None) "weight" demo_state
     = (Ok (PyInt 3), demo_state)
  /\ wrapper_getattr demo_host (fun _ => None) "weight" demo_compiled_state
     = (Ok (PyInt 4), demo_compiled_state).
Proof.
  split; [reflexivity|]. split.
  - exact (proj1 (getattr_forwards_to_wrapped demo_host (fun _ => None) "weight"
                    demo_wrapper (demo_world ∅) eq_refl)).
  - exact (proj1 (getattr_forwards_to_wrapped demo_host (fun _ => None) "weight"
                    (fst demo_compiled_state) (snd demo_compiled_state) eq_refl)).
Defined.

Lemma set_torch_compile_kwargs_mutates_caller_witness :
  let out := set_torch_compile_kwargs demo_host 2 (demo_wrapper, demo_caller_world) in
  dicts demo_caller_world !! 2%positive = Some demo_options
  /\ demo_options !! "backend" = Some (PyStr "my.pkg.fn")
  /\ out = (Ok tt, snd out)
  /\ dicts (snd (snd out)) !! 2%positive = Some (delete "backend" demo_options).
Proof.
  cbv zeta.
  split; [reflexivity|]. split; [reflexivity|]. split; [reflexivity|].
  exact (proj1 (set_torch_compile_kwargs_mutates_caller demo_host 2 demo_wrapper
                  demo_caller_world demo_options (PyStr "my.pkg.fn")
                  (snd (set_torch_compile_kwargs demo_host 2 (demo_wrapper, demo_caller_world)))
                  eq_refl eq_refl eq_refl)).
Defined.

Lemma init_without_config_fails_witness :
  has_compile demo_host = true
  /\ CompiledModuleWrapper_init demo_host demo_module None (demo_world ∅)
     = (Raise (AttributeError "'NoneType' object has no attribute 'backend'"), demo_world ∅)
  /\ CompiledModuleWrapper_init old_host demo_module None (demo_world ∅)
     = (Raise (AssertionError "torch.compile is not supported on this version of PyTorch."),
        demo_world ∅).
Proof.
  split; [reflexivity|]. split.
  - exact (proj1 (proj2 (init_without_config_fails demo_host demo_module (demo_world ∅)))
             eq_refl).
  - reflexivity.
Defined.

(** * Further properties *)

(** ** Backend names and the resolver *)

Lemma split_dot_two_pieces (s : string) :
  dot_free s = false -> 2 <= length (split_dot s).
Proof.
  induction s as [|c s IH]; simpl; [discriminate|].
  pose proof (split_dot_not_nil s) as Hne.
  destruct (Ascii.eqb c dot); simpl.
  - intros _. destruct (split_dot s); [congruence|simpl; lia].
  - intros Hs. specialize (IH Hs). destruct (split_dot s); simpl in *; lia.
Qed.

Lemma join_dot_snoc (ws : list string) (x : string) :
  ws <> [] -> join_dot (ws ++ [x]) = (join_dot ws ++ String dot x)%string.
Proof.
  induction ws as [|w ws IH]; [congruence|]. intros _.
  destruct ws as [|w' ws]; [reflexivity|].
  change (join_dot ((w :: w' :: ws) ++ [x]))
    with (w ++ String dot (join_dot ((w' :: ws) ++ [x])))%string.
  rewrite IH by discriminate.
  change (join_dot (w :: w' :: ws)) with (w ++ String dot (join_dot (w' :: ws)))%string.
  generalize (join_dot (w' :: ws)). intros j.
  induction w as [|c w IHw]; [reflexivity|].
  change (String c (w ++ String dot (j ++ String dot x))
          = String c ((w ++ String dot j) ++ String dot x))%string.
  f_equal. exact IHw.
Qed.

(** X1: a backend name that holds a dot is its module name, a dot and its
    function name, and the function name holds no dot. *)
Theorem backend_name_round_trip (s : string) :
  dot_free s = false ->
  (module_name_of s ++ String dot (fn_name_of s))%string = s
  /\ dot_free (fn_name_of s) = true.
Proof.
  intros Hs. split; [|apply fn_name_of_dot_free].
  pose proof (split_dot_two_pieces s Hs) as Hlen.
  pose proof (split_dot_not_nil s) as Hne.
  unfold module_name_of, fn_name_of, all_but_last, last_item.
  rewrite <- join_dot_snoc.
  - rewrite <- app_removelast_last by exact Hne. apply join_split_dot.
  - destruct (split_dot s) as [|w [|w' ws]]; simpl in *; [lia|lia|discriminate].
Qed.

Lemma backend_name_round_trip_witness :
  dot_free "torch._dynamo.backends.debugging.eager" = false
  /\ module_name_of "torch._dynamo.backends.debugging.eager"
     = "torch._dynamo.backends.debugging"
  /\ fn_name_of "torch._dynamo.backends.debugging.eager" = "eager"
  /\ (module_name_of "torch._dynamo.backends.debugging.eager"
      ++ String dot (fn_name_of "torch._dynamo.backends.debugging.eager"))%string
     = "torch._dynamo.backends.debugging.eager".
Proof.
  split; [reflexivity|]. split; [reflexivity|]. split; [reflexivity|].
  exact (proj1 (backend_name_round_trip "torch._dynamo.backends.debugging.eager" eq_refl)).
Defined.

Section ResolverMore.

Context {HostState : Type}.
Variable h : Host HostState.

(** X2: for a backend name without a dot the module name is empty and the
    function name is the whole name, so [get_backend_fn] asks the host to
    import the module named by the empty string; when that import raises,
    the call raises (the "Could not import module" ValueError for an
    ImportError, the exception itself otherwise). *)
Theorem get_backend_fn_dotless (s : string) (w : World HostState) :
  dot_free s = true ->
  module_name_of s = EmptyString
  /\ fn_name_of s = s
  /\ trace (snd (get_backend_fn h s w)) = (trace w ++ [EvImport EmptyString])%list
  /\ (forall (e : PyExn) (hs : HostState),
        import_module h EmptyString (host_st w) = (Raise e, hs) ->
        fst (get_backend_fn h s w)
        = Raise (if is_ImportError e
                 then ValueError "Could not import module  for torch.compile backend."
                 else e)).
Proof.
  intros Hs.
  assert (Hm : module_name_of s = EmptyString).
  { unfold module_name_of, all_but_last. rewrite (split_dot_dot_free s Hs). reflexivity. }
  assert (Hf : fn_name_of s = s).
  { unfold fn_name_of, last_item. rewrite (split_dot_dot_free s Hs). reflexivity. }
  split; [exact Hm|]. split; [exact Hf|].
  rewrite get_backend_fn_unfold, Hm, Hf. cbv zeta. split.
  - destruct (import_module h EmptyString (host_st w)) as [[module|e] hs1]; [|reflexivity].
    destruct (host_getattr h module s hs1) as [[v|e] hs2]; reflexivity.
  - intros e hs Himp. rewrite Himp. reflexivity.
Qed.

(** X3: an exception that is not an ImportError passes through
    [get_backend_fn] as it is, whether the import raised it or the
    attribute lookup did (so a module that lacks the function gives the
    AttributeError of [getattr], not the ValueError). *)
Theorem get_backend_fn_propagates (name : string) (w : World HostState) (e : PyExn) :
  is_ImportError e = false ->
  (forall hs1 : HostState,
     import_module h (module_name_of name) (host_st w) = (Raise e, hs1) ->
     fst (get_backend_fn h name w) = Raise e)
  /\ (forall (module : PyVal) (hs1 hs2 : HostState),
        import_module h (module_name_of name) (host_st w) = (Ok module, hs1) ->
        host_getattr h module (fn_name_of name) hs1 = (Raise e, hs2) ->
        fst (get_backend_fn h name w) = Raise e).
Proof.
  intros He. split.
  - intros hs1 Himp. rewrite get_backend_fn_unfold. cbv zeta. rewrite Himp, He. reflexivity.
  - intros module hs1 hs2 Himp Hattr. rewrite get_backend_fn_unfold. cbv zeta.
    rewrite Himp, Hattr, He. reflexivity.
Qed.

(** X4: the attribute lookup is inside the [try] as well: an ImportError
    raised by [getattr] on a module that did import is reported as "Could
    not import module <m> for torch.compile backend." too. *)
Theorem get_backend_fn_getattr_import_error (name : string) (w : World HostState)
    (module : PyVal) (e : PyExn) (hs1 hs2 : HostState) :
  import_module h (module_name_of name) (host_st w) = (Ok module, hs1) ->
  host_getattr h module (fn_name_of name) hs1 = (Raise e, hs2) ->
  is_ImportError e = true ->
  get_backend_fn h name w
  = (Raise (ValueError ("Could not import module " ++ module_name_of name
                        ++ " for torch.compile backend.")),
     MkWorld (dicts w) hs2 (trace w ++ [EvImport (module_name_of name)])).
Proof.
  intros Himp Hattr He. rewrite get_backend_fn_unfold. cbv zeta.
  rewrite Himp, Hattr, He. reflexivity.
Qed.

(** X5: whatever its outcome, [get_backend_fn] imports once, the module
    named by all but the last segment, and changes no dict object. *)
Theorem get_backend_fn_one_import (name : string) (w : World HostState) :
  trace (snd (get_backend_fn h name w)) = (trace w ++ [EvImport (module_name_of name)])%list
  /\ dicts (snd (get_backend_fn h name w)) = dicts w.
Proof.
  split; [|apply get_backend_fn_dicts].
  rewrite get_backend_fn_unfold. cbv zeta.
  destruct (import_module h _ _) as [[module|e] hs1]; [|reflexivity].
  destruct (host_getattr h module _ hs1) as [[v|e] hs2]; reflexivity.
Qed.

(** X6: [set_backend] does not look at the host's list of backends.  For a
    name without a dot, even one the host lists and [validate_backend]
    accepts, it asks for the import of the module named by the empty
    string, and when that raises it raises and the wrapper keeps the
    backend it had. *)
Theorem set_backend_ignores_listed_names (s : string) (self : Wrapper)
    (w : World HostState) (e : PyExn) (hs : HostState) :
  dot_free s = true ->
  s ∈ list_backends h ->
  import_module h EmptyString (host_st w) = (Raise e, hs) ->
  validate_backend h (PyStr s) w = (Ok (PyStr s), w)
  /\ set_backend h (PyStr s) (self, w)
     = (Raise (if is_ImportError e
               then ValueError "Could not import module  for torch.compile backend."
               else e),
        (self, MkWorld (dicts w) hs (trace w ++ [EvImport EmptyString]))).
Proof.
  intros Hs Hin Himp. split.
  - unfold validate_backend. destruct (is_compile_supported h); [|reflexivity].
    rewrite bool_decide_eq_true_2 by exact Hin. reflexivity.
  - rewrite set_backend_str. simpl snd. simpl fst.
    rewrite get_backend_fn_unfold. cbv zeta.
    assert (Hm : module_name_of s = EmptyString).
    { unfold module_name_of, all_but_last. rewrite (split_dot_dot_free s Hs). reflexivity. }
    rewrite Hm, Himp. destruct (is_ImportError e); reflexivity.
Qed.

End ResolverMore.

(** ** The setters *)

Section Setters.

Context {HostState : Type}.
Variable h : Host HostState.

Lemma quiet_step_refl (st : Wrapper * World HostState) : quiet_step st st.
Proof. split; [apply with_backend_same|reflexivity]. Qed.

Lemma quiet_step_trans (st1 st2 st3 : Wrapper * World HostState) :
  quiet_step st1 st2 -> quiet_step st2 st3 -> quiet_step st1 st3.
Proof.
  intros [H1 T1] [H2 T2]. split; [|congruence].
  etransitivity; [exact H2|]. generalize (_backend (fst st3)). intros x.
  rewrite H1. reflexivity.
Qed.

Lemma quiet_step_bind {A B : Type} (m : M (Wrapper * World HostState) A)
    (k : A -> M (Wrapper * World HostState) B) :
  (forall st, quiet_step st (snd (m st))) ->
  (forall a st, quiet_step st (snd (k a st))) ->
  forall st, quiet_step st (snd (bind m k st)).
Proof.
  intros Hm Hk st. unfold bind. specialize (Hm st).
  destruct (m st) as [[a|e] st1]; [|exact Hm].
  exact (quiet_step_trans _ _ _ Hm (Hk a st1)).
Qed.

Lemma quiet_step_lift {A : Type} (m : M (World HostState) A) :
  (forall w, compile_calls (trace (snd (m w))) = compile_calls (trace w)) ->
  forall st, quiet_step st (snd (lift m st)).
Proof.
  intros Hm st. unfold lift. specialize (Hm (snd st)).
  destruct (m (snd st)) as [r w']. split; [apply with_backend_same|exact Hm].
Qed.

Lemma dict_get_world (l : positive) (w : World HostState) : snd (dict_get l w) = w.
Proof. unfold dict_get. destruct (dicts w !! l); reflexivity. Qed.

Lemma dict_del_trace (l : positive) (k : string) (w : World HostState) :
  trace (snd (dict_del l k w)) = trace w.
Proof.
  unfold dict_del, bind, dict_get.
  destruct (dicts w !! l) as [d|]; [|reflexivity].
  destruct (d !! k); reflexivity.
Qed.

Lemma dict_update_trace (dst src : positive) (w : World HostState) :
  trace (snd (dict_update dst src w)) = trace w.
Proof.
  unfold dict_update, bind, dict_get.
  destruct (dicts w !! src) as [s|]; [|reflexivity].
  destruct (dicts w !! dst) as [d|]; reflexivity.
Qed.

Lemma quiet_step_set_backend (b : PyVal) (st : Wrapper * World HostState) :
  quiet_step st (snd (set_backend h b st)).
Proof.
  split.
  - exact (proj2 (set_backend_frame h b st)).
  - destruct (is_str b) eqn:Hb.
    + destruct b; try discriminate. rewrite set_backend_str.
      pose proof (get_backend_fn_one_import h s (snd st)) as [Htr _].
      destruct (get_backend_fn h s (snd st)) as [[fn|e] w']; simpl in Htr.
      * destruct (nn_setattr_backend_frame h fn (fst st, w')) as (_ & _ & Ht).
        simpl in Ht. rewrite Ht, Htr, compile_calls_app. apply Nat.add_0_r.
      * simpl. rewrite Htr, compile_calls_app. apply Nat.add_0_r.
    + rewrite (set_backend_other h b st Hb). destruct (callable h b); [|reflexivity].
      destruct (nn_setattr_backend_frame h b st) as (_ & _ & Ht). rewrite Ht. reflexivity.
Qed.

Lemma quiet_step_set_torch_compile_kwargs (kw : positive) (st : Wrapper * World HostState) :
  quiet_step st (snd (set_torch_compile_kwargs h kw st)).
Proof.
  revert st. unfold set_torch_compile_kwargs.
  apply quiet_step_bind.
  { apply quiet_step_lift. intros w. rewrite dict_get_world. reflexivity. }
  intros d. apply quiet_step_bind.
  - destruct (d !! "backend") as [b|]; [|apply quiet_step_refl].
    apply quiet_step_bind; [apply quiet_step_set_backend|].
    intros _. apply quiet_step_lift. intros w. rewrite dict_del_trace. reflexivity.
  - intros _. apply quiet_step_bind; [apply quiet_step_refl|].
    intros self. apply quiet_step_lift. intros w. rewrite dict_update_trace. reflexivity.
Qed.


(** X8: for a dict without a "backend" entry, [set_torch_compile_kwargs]
    returns, leaves the wrapper (its backend too) and the host alone, and
    the stored options hold every entry of the dict, and for the other keys
    what they held before; no other dict object changes. *)
Theorem set_torch_compile_kwargs_merges (kw : positive) (self : Wrapper)
    (w : World HostState) (d stored : gmap string PyVal) :
  dicts w !! kw = Some d ->
  d !! "backend" = None ->
  dicts w !! _compile_kwargs self = Some stored ->
  exists (w' : World HostState) (stored' : gmap string PyVal),
    set_torch_compile_kwargs h kw (self, w) = (Ok tt, (self, w'))
    /\ dicts w' !! _compile_kwargs self = Some stored'
    /\ (forall k : string,
          stored' !! k = match d !! k with Some v => Some v | None => stored !! k end)
    /\ (forall l : positive, l <> _compile_kwargs self -> dicts w' !! l = dicts w !! l)
    /\ host_st w' = host_st w
    /\ trace w' = trace w.
Proof.
  intros Hkw Hb Hs.
  eexists. exists (d ∪ stored).
  split; [apply (set_torch_compile_kwargs_plain h kw self w d stored Hkw Hb Hs)|].
  simpl. split; [apply lookup_insert_eq|]. split; [|split; [|split; reflexivity]].
  - intros k. rewrite lookup_union. destruct (d !! k), (stored !! k); reflexivity.
  - intros l Hl. apply lookup_insert_ne. congruence.
Qed.

(** X9: two calls of [set_torch_compile_kwargs] with dicts that have no
    "backend" entry compose: the stored options are the second dict merged
    over the first merged over the previous options; with the same dict
    twice, the second call changes nothing. *)
Theorem set_torch_compile_kwargs_twice (kw1 kw2 : positive) (self : Wrapper)
    (w : World HostState) (d1 d2 stored : gmap string PyVal) :
  dicts w !! kw1 = Some d1 ->
  dicts w !! kw2 = Some d2 ->
  d1 !! "backend" = None ->
  d2 !! "backend" = None ->
  dicts w !! _compile_kwargs self = Some stored ->
  kw2 <> _compile_kwargs self ->
  let st1 := snd (set_torch_compile_kwargs h kw1 (self, w)) in
  let out := set_torch_compile_kwargs h kw2 st1 in
  fst out = Ok tt
  /\ fst (snd out) = self
  /\ dicts (snd (snd out)) !! _compile_kwargs self = Some (d2 ∪ (d1 ∪ stored))
  /\ (kw1 = kw2 -> snd out = st1).
Proof.
  intros H1 H2 Hb1 Hb2 Hs Hne. cbv zeta.
  rewrite (set_torch_compile_kwargs_plain h kw1 self w d1 stored H1 Hb1 Hs). simpl snd.
  set (w1 := MkWorld (<[_compile_kwargs self := d1 ∪ stored]> (dicts w)) (host_st w) (trace w)).
  assert (H2' : dicts w1 !! kw2 = Some d2)
    by (simpl; rewrite lookup_insert_ne by congruence; exact H2).
  assert (Hs' : dicts w1 !! _compile_kwargs self = Some (d1 ∪ stored))
    by (simpl; apply lookup_insert_eq).
  rewrite (set_torch_compile_kwargs_plain h kw2 self w1 d2 (d1 ∪ stored) H2' Hb2 Hs').
  simpl. split; [reflexivity|]. split; [reflexivity|]. split; [apply lookup_insert_eq|].
  intros Heq. subst kw2. assert (d1 = d2) by congruence. subst d2.
  unfold w1. rewrite insert_insert_eq, (assoc_L (∪)), (idemp_L (∪)). reflexivity.
Qed.

(** X10: when [set_backend] refuses the "backend" entry of the dict passed
    to [set_torch_compile_kwargs], the call raises the same exception and
    nothing has been written: the entry is still in the caller's dict, the
    stored options and every other dict object are as before, and so is
    the wrapper, unless the value to store (the entry, or what the name it
    gives resolves to) is a Parameter; then every field but [_backend] is
    as before, and [_backend] is as before or gone. *)
Theorem set_torch_compile_kwargs_refused (kw : positive) (self : Wrapper)
    (w : World HostState) (d : gmap string PyVal) (b : PyVal) (e : PyExn)
    (st1 : Wrapper * World HostState) :
  dicts w !! kw = Some d ->
  d !! "backend" = Some b ->
  set_backend h b (self, w) = (Raise e, st1) ->
  set_torch_compile_kwargs h kw (self, w) = (Raise e, st1)
  /\ ((forall v : PyVal,
         b = v \/ (exists (s : string) (w' : World HostState),
                     b = PyStr s /\ get_backend_fn h s w = (Ok v, w')) ->
         kind_of h v <> KParameter) ->
      fst st1 = self)
  /\ (fst st1 = self \/ fst st1 = with_backend Absent self)
  /\ dicts (snd st1) = dicts w
  /\ dicts (snd st1) !! kw = Some d.
Proof.
  intros Hkw Hb Hset.
  pose proof (set_backend_frame h b (self, w)) as [Hd _]. cbv zeta in Hd.
  rewrite Hset in Hd. simpl in Hd.
  destruct (set_backend_raise h b (self, w) st1 e Hset) as [H1 H2].
  rewrite (set_torch_compile_kwargs_backend h kw self w d b Hkw Hb), Hset.
  split; [reflexivity|]. split; [exact H2|]. split; [exact H1|]. split; [exact Hd|].
  rewrite Hd. exact Hkw.
Qed.

(** X11: the wrapper keeps the dict object of the config as its options,
    not a copy: two wrappers built from one config have the same options
    object, so options set through one of them are the options of the
    other. *)
Theorem wrappers_share_config_options (m1 m2 : PyVal) (c : CompileConfig)
    (w w1 w2 : World HostState) (s1 s2 : Wrapper) (kw : positive)
    (d stored : gmap string PyVal) :
  CompiledModuleWrapper_init h m1 (Some c) w = (Ok s1, w1) ->
  CompiledModuleWrapper_init h m2 (Some c) w1 = (Ok s2, w2) ->
  dicts w2 !! kw = Some d ->
  d !! "backend" = None ->
  dicts w2 !! kwargs c = Some stored ->
  let out := set_torch_compile_kwargs h kw (s1, w2) in
  torch_compile_kwargs s1 = PyDictRef (kwargs c)
  /\ torch_compile_kwargs s2 = PyDictRef (kwargs c)
  /\ fst out = Ok tt
  /\ dicts (snd (snd out)) !! _compile_kwargs s2 = Some (d ∪ stored)
  /\ dicts (snd (snd out)) !! kwargs c = Some (d ∪ stored).
Proof.
  intros Hi1 Hi2 Hkw Hb Hs. cbv zeta.
  destruct (init_returns h m1 (Some c) w w1 s1 Hi1) as (c1 & p1 & [= <-] & _ & -> & _).
  destruct (init_returns h m2 (Some c) w1 w2 s2 Hi2) as (c2 & p2 & [= <-] & _ & -> & _).
  unfold torch_compile_kwargs. simpl _compile_kwargs.
  split; [reflexivity|]. split; [reflexivity|].
  rewrite (set_torch_compile_kwargs_plain h kw
             (MkWrapper m1 m1 false p1 (kwargs c) (InDict PyNone)) w2 d stored Hkw Hb Hs).
  simpl. rewrite lookup_insert_eq. repeat split.
Qed.

End Setters.

(** ** Calls and sequences of operations *)

Section Calls.

Context {HostState : Type}.
Variable h : Host HostState.



(** X14: when the compilation step of a call raises, [forward] raises the
    same exception, the wrapped module is not called (the log grows by the
    compilation call at most), and the wrapper and the dict objects are as
    before the call. *)
Theorem forward_compile_failure (self : Wrapper) (w : World HostState) (e : PyExn)
    (st1 : Wrapper * World HostState)
    (args : list PyVal) (kw : list (string * PyVal)) :
  _is_compiled self = false ->
  compile_step h (self, w) = (Raise e, st1) ->
  forward h args kw (self, w) = (Raise e, st1)
  /\ fst st1 = self
  /\ dicts (snd st1) = dicts w
  /\ exists new : list Event,
       trace (snd st1) = (trace w ++ new)%list
       /\ Forall (fun ev => is_compile_event ev = true) new
       /\ length new <= 1.
Proof.
  intros Hc Hstep.
  split; [rewrite (forward_uncompiled h args kw (self, w) Hc), Hstep; reflexivity|].
  exact (compile_step_raise h self w e st1 Hstep).
Qed.

Lemma wrapper_getattr_trace (base_attr : string -> option PyVal) (name : string)
    (st : Wrapper * World HostState) :
  trace (snd (snd (wrapper_getattr h base_attr name st))) = trace (snd st).
Proof.
  unfold wrapper_getattr, getattr_fallback. py_unfold.
  destruct (own_attr base_attr (fst st) name) as [[v|field]|].
  - reflexivity.
  - destruct (host_getattr h (wrapped (fst st)) field _) as [[v|e] hs]; [reflexivity|].
    destruct (is_AttributeError e); [|reflexivity]. simpl.
    destruct (host_getattr h _ _ _); reflexivity.
  - destruct (host_getattr h _ _ _); reflexivity.
Qed.

(** An operation on a compiled wrapper makes no compilation call. *)
Lemma run_op_compiled_quiet (op : Op) (st : Wrapper * World HostState) :
  _is_compiled (fst st) = true ->
  compile_calls (trace (snd (run_op h op st))) = compile_calls (trace (snd st)).
Proof.
  intros Hc. destruct op as [args kw|b|kw|fn|base_attr name]; simpl.
  - rewrite (forward_compiled h args kw st Hc). destruct st as [self w].
    rewrite delegate_unfold. destruct (host_call h _ _ _ _). simpl.
    rewrite compile_calls_app. apply Nat.add_0_r.
  - apply quiet_step_set_backend.
  - apply quiet_step_set_torch_compile_kwargs.
  - destruct (nn_setattr_compiler_fn_frame h fn st) as (_ & _ & Ht).
    unfold set_compiler_fn. rewrite Ht. reflexivity.
  - rewrite wrapper_getattr_trace. reflexivity.
Qed.

(** No operation changes the registered module or the address of the
    options. *)
Lemma run_op_fields (op : Op) (st : Wrapper * World HostState) :
  modules_wrapped (fst (run_op h op st)) = modules_wrapped (fst st)
  /\ _compile_kwargs (fst (run_op h op st)) = _compile_kwargs (fst st).
Proof.
  destruct op as [args kw|b|kw|fn|base_attr name]; simpl.
  - destruct (_is_compiled (fst st)) eqn:Hc.
    + rewrite (forward_compiled h args kw st Hc), delegate_wrapper. split; reflexivity.
    + rewrite (forward_uncompiled h args kw st Hc). destruct st as [self w].
      destruct (compile_step h (self, w)) as [[[]|e] st1] eqn:Hstep.
      * destruct (compile_step_ok h self w st1 Hstep) as (r & hs0 & m & hs & _ & _ & ->).
        rewrite delegate_wrapper. split; reflexivity.
      * simpl. rewrite (proj1 (compile_step_raise h self w e st1 Hstep)). split; reflexivity.
  - destruct (quiet_step_set_backend h b st) as [Hq _]. rewrite Hq. split; reflexivity.
  - destruct (quiet_step_set_torch_compile_kwargs h kw st) as [Hq _].
    rewrite Hq. split; reflexivity.
  - destruct (nn_setattr_compiler_fn_frame h fn st) as (Hf & _ & _).
    unfold set_compiler_fn. rewrite Hf. split; reflexivity.
  - rewrite wrapper_getattr_wrapper. split; reflexivity.
Qed.

(** An operation that leaves the wrapper uncompiled leaves the wrapped
    object. *)
Lemma run_op_uncompiled_after (op : Op) (st : Wrapper * World HostState) :
  _is_compiled (fst (run_op h op st)) = false ->
  wrapped (fst (run_op h op st)) = wrapped (fst st)
  /\ _is_compiled (fst st) = false.
Proof.
  intros Hafter.
  destruct (_is_compiled (fst st)) eqn:Hc.
  { destruct (compiled_is_terminal h op st Hc) as [Ht _]. congruence. }
  split; [|reflexivity].
  destruct op as [args kw|b|kw|fn|base_attr name];
    try (apply run_op_frame; discriminate).
  simpl in *. rewrite (forward_uncompiled h args kw st Hc) in *.
  destruct st as [self w].
  destruct (compile_step h (self, w)) as [[[]|e] st1] eqn:Hstep.
  - destruct (compile_step_ok h self w st1 Hstep) as (r & hs0 & m & hs & _ & _ & ->).
    rewrite delegate_wrapper in Hafter. discriminate.
  - simpl. rewrite (proj1 (compile_step_raise h self w e st1 Hstep)). reflexivity.
Qed.

(** X15: on a compiled wrapper no sequence of operations (calls, setters,
    attribute reads) makes another compilation call, changes the wrapped
    object or clears the flag: a backend, options or a compiler function
    set after the first call take no effect. *)
Theorem compiled_never_recompiles (ops : list Op) (st : Wrapper * World HostState) :
  _is_compiled (fst st) = true ->
  compile_calls (trace (snd (run_ops h ops st))) = compile_calls (trace (snd st))
  /\ wrapped (fst (run_ops h ops st)) = wrapped (fst st)
  /\ _is_compiled (fst (run_ops h ops st)) = true.
Proof.
  revert st. induction ops as [|op ops IH]; intros st Hc; simpl; [repeat split; exact Hc|].
  destruct (compiled_is_terminal h op st Hc) as [Hc1 Hw1].
  destruct (IH (run_op h op st) Hc1) as (IH1 & IH2 & IH3).
  rewrite IH1, IH2, (run_op_compiled_quiet op st Hc), Hw1. repeat split. exact IH3.
Qed.

(** X16: over every sequence of operations the module registered in
    [_modules] stays the one given to [__init__] (the compiled replacement
    is never registered) and the options stay the same dict object; the
    flag never goes back to false; and as long as the flag is false the
    wrapped object is the original one. *)
Theorem registered_module_never_replaced (ops : list Op) (st : Wrapper * World HostState) :
  let st' := run_ops h ops st in
  modules_wrapped (fst st') = modules_wrapped (fst st)
  /\ _compile_kwargs (fst st') = _compile_kwargs (fst st)
  /\ (_is_compiled (fst st) = true -> _is_compiled (fst st') = true)
  /\ (_is_compiled (fst st') = false -> wrapped (fst st') = wrapped (fst st)).
Proof.
  revert st. induction ops as [|op ops IH]; intros st; cbv zeta; simpl;
    [repeat split; auto|].
  specialize (IH (run_op h op st)). cbv zeta in IH.
  destruct IH as (IH1 & IH2 & IH3 & IH4).
  destruct (run_op_fields op st) as [Hm Hk].
  rewrite IH1, IH2, Hm, Hk. split; [reflexivity|]. split; [reflexivity|]. split.
  - intros Hc. apply IH3. apply (compiled_is_terminal h op st Hc).
  - intros Hafter. rewrite (IH4 Hafter).
    destruct (_is_compiled (fst (run_op h op st))) eqn:Hmid.
    + rewrite (IH3 eq_refl) in Hafter. discriminate.
    + apply (run_op_uncompiled_after op st Hmid).
Qed.


(** X18: [disable(func)] on a host without [torch.compile] is [func]
    itself, for every function and whatever the host's
    [torch.compiler.disable] would do: the host is not entered and nothing
    is raised.  On a host with [torch.compile] the outcome is that of
    [torch.compiler.disable(func)]. *)
Theorem disable_pass_through
    (compiler_disable : PyVal -> HostState -> Result PyVal * HostState)
    (func : PyVal) (w : World HostState) :
  (has_compile h = false ->
   disable h compiler_disable func w = (Ok func, w)
   /\ bind (disable h compiler_disable func) (disable h compiler_disable) w = (Ok func, w))
  /\ (has_compile h = true ->
      disable h compiler_disable func w
      = (let (r, hs) := compiler_disable func (host_st w) in
         (r, MkWorld (dicts w) hs (trace w)))).
Proof.
  unfold disable, is_compile_supported, bind. split; intros ->; [split|]; reflexivity.
Qed.

End Calls.

(** ** The further properties at concrete inputs *)

Lemma get_backend_fn_dotless_witness :
  dot_free "inductor" = true
  /\ module_name_of "inductor" = EmptyString
  /\ fn_name_of "inductor" = "inductor"
  /\ trace (snd (get_backend_fn demo_host "inductor" (demo_world ∅))) = [EvImport EmptyString]
  /\ fst (get_backend_fn demo_host "inductor" (demo_world ∅))
     = Raise (ValueError "Empty module name").
Proof.
  split; [reflexivity|].
  destruct (get_backend_fn_dotless demo_host "inductor" (demo_world ∅) eq_refl)
    as (H1 & H2 & H3 & H4).
  split; [exact H1|]. split; [exact H2|]. split; [exact H3|].
  exact (H4 (ValueError "Empty module name") 0 eq_refl).
Defined.

Lemma get_backend_fn_propagates_witness :
  is_ImportError (AttributeError "missing") = false
  /\ import_module demo_host (module_name_of "my.pkg.missing") (host_st (demo_world ∅))
     = (Ok demo_package, 1)
  /\ host_getattr demo_host demo_package (fn_name_of "my.pkg.missing") 1
     = (Raise (AttributeError "missing"), 1)
  /\ fst (get_backend_fn demo_host "my.pkg.missing" (demo_world ∅))
     = Raise (AttributeError "missing").
Proof.
  split; [reflexivity|]. split; [reflexivity|]. split; [reflexivity|].
  exact (proj2 (get_backend_fn_propagates demo_host "my.pkg.missing" (demo_world ∅)
                  (AttributeError "missing") eq_refl)
               demo_package 1 1 eq_refl eq_refl).
Defined.

Lemma get_backend_fn_getattr_import_error_witness :
  import_module lazy_host (module_name_of "my.pkg.lazy") (host_st (demo_world ∅))
  = (Ok demo_package, 1)
  /\ host_getattr lazy_host demo_package (fn_name_of "my.pkg.lazy") 1
     = (Raise (ImportError "cannot import name lazy"), 1)
  /\ is_ImportError (ImportError "cannot import name lazy") = true
  /\ get_backend_fn lazy_host "my.pkg.lazy" (demo_world ∅)
     = (Raise (ValueError "Could not import module my.pkg for torch.compile backend."),
        MkWorld (dicts (demo_world ∅)) 1 [EvImport "my.pkg"]).
Proof.
  split; [reflexivity|]. split; [reflexivity|]. split; [reflexivity|].
  exact (get_backend_fn_getattr_import_error lazy_host "my.pkg.lazy" (demo_world ∅)
           demo_package (ImportError "cannot import name lazy") 1 1
           eq_refl eq_refl eq_refl).
Defined.

Lemma set_backend_ignores_listed_names_witness :
  dot_free "inductor" = true
  /\ "inductor" ∈ list_backends demo_host
  /\ import_module demo_host EmptyString (host_st (demo_world ∅))
     = (Raise (ValueError "Empty module name"), 0)
  /\ validate_backend demo_host (PyStr "inductor") (demo_world ∅)
     = (Ok (PyStr "inductor"), demo_world ∅)
  /\ set_backend demo_host (PyStr "inductor") demo_state
     = (Raise (ValueError "Empty module name"),
        (demo_wrapper, MkWorld (dicts (demo_world ∅)) 0 [EvImport EmptyString])).
Proof.
  assert (Hin : "inductor" ∈ list_backends demo_host) by (simpl; repeat constructor).
  split; [reflexivity|]. split; [exact Hin|]. split; [reflexivity|].
  exact (set_backend_ignores_listed_names demo_host "inductor" demo_wrapper (demo_world ∅)
           (ValueError "Empty module name") 0 eq_refl Hin eq_refl).
Defined.


Lemma set_torch_compile_kwargs_merges_witness :
  dicts demo_plain_world !! 2%positive = Some {[ "mode" := PyStr "max-autotune" ]}
  /\ ({[ "mode" := PyStr "max-autotune" ]} : gmap string PyVal) !! "backend" = None
  /\ dicts demo_plain_world !! _compile_kwargs demo_wrapper = Some ∅
  /\ exists (w' : World nat) (stored' : gmap string PyVal),
       set_torch_compile_kwargs demo_host 2 (demo_wrapper, demo_plain_world)
       = (Ok tt, (demo_wrapper, w'))
       /\ dicts w' !! _compile_kwargs demo_wrapper = Some stored'
       /\ stored' !! "mode" = Some (PyStr "max-autotune").
Proof.
  assert (H1 : dicts demo_plain_world !! 2%positive
               = Some {[ "mode" := PyStr "max-autotune" ]}) by reflexivity.
  assert (H2 : ({[ "mode" := PyStr "max-autotune" ]} : gmap string PyVal) !! "backend"
               = None) by reflexivity.
  assert (H3 : dicts demo_plain_world !! _compile_kwargs demo_wrapper = Some ∅)
    by reflexivity.
  split; [exact H1|]. split; [exact H2|]. split; [exact H3|].
  destruct (set_torch_compile_kwargs_merges demo_host 2 demo_wrapper demo_plain_world
              {[ "mode" := PyStr "max-autotune" ]} ∅ H1 H2 H3)
    as (w' & stored' & Hrun & Hs & Hk & _).
  exists w', stored'. split; [exact Hrun|]. split; [exact Hs|].
  rewrite (Hk "mode"). reflexivity.
Defined.

Lemma set_torch_compile_kwargs_twice_witness :
  let st1 := snd (set_torch_compile_kwargs demo_host 2 (demo_wrapper, demo_plain_world)) in
  let out := set_torch_compile_kwargs demo_host 3 st1 in
  dicts demo_plain_world !! 2%positive = Some {[ "mode" := PyStr "max-autotune" ]}
  /\ dicts demo_plain_world !! 3%positive = Some {[ "fullgraph" := PyBool true ]}
  /\ 3%positive <> _compile_kwargs demo_wrapper
  /\ fst out = Ok tt
  /\ dicts (snd (snd out)) !! _compile_kwargs demo_wrapper
     = Some ({[ "fullgraph" := PyBool true ]} ∪ ({[ "mode" := PyStr "max-autotune" ]} ∪ ∅)).
Proof.
  cbv zeta.
  assert (H1 : dicts demo_plain_world !! 2%positive
               = Some {[ "mode" := PyStr "max-autotune" ]}) by reflexivity.
  assert (H2 : dicts demo_plain_world !! 3%positive
               = Some {[ "fullgraph" := PyBool true ]}) by reflexivity.
  assert (Hb1 : ({[ "mode" := PyStr "max-autotune" ]} : gmap string PyVal) !! "backend"
                = None) by reflexivity.
  assert (Hb2 : ({[ "fullgraph" := PyBool true ]} : gmap string PyVal) !! "backend"
                = None) by reflexivity.
  assert (H3 : dicts demo_plain_world !! _compile_kwargs demo_wrapper = Some ∅)
    by reflexivity.
  assert (Hne : 3%positive <> _compile_kwargs demo_wrapper) by discriminate.
  split; [exact H1|]. split; [exact H2|]. split; [exact Hne|].
  destruct (set_torch_compile_kwargs_twice demo_host 2 3 demo_wrapper demo_plain_world
              _ _ ∅ H1 H2 Hb1 Hb2 H3 Hne) as (Hok & _ & Hs & _).
  split; [exact Hok|exact Hs].
Defined.

Lemma set_torch_compile_kwargs_refused_witness :
  dicts demo_plain_world !! 4%positive = Some {[ "backend" := PyInt 5 ]}
  /\ ({[ "backend" := PyInt 5 ]} : gmap string PyVal) !! "backend" = Some (PyInt 5)
  /\ set_backend demo_host (PyInt 5) (demo_wrapper, demo_plain_world)
     = (Raise (invalid_backend demo_host (PyInt 5)), (demo_wrapper, demo_plain_world))
  /\ set_torch_compile_kwargs demo_host 4 (demo_wrapper, demo_plain_world)
     = (Raise (invalid_backend demo_host (PyInt 5)), (demo_wrapper, demo_plain_world))
  /\ dicts demo_plain_world !! 4%positive = Some {[ "backend" := PyInt 5 ]}.
Proof.
  assert (H1 : dicts demo_plain_world !! 4%positive = Some {[ "backend" := PyInt 5 ]})
    by reflexivity.
  assert (H2 : ({[ "backend" := PyInt 5 ]} : gmap string PyVal) !! "backend"
               = Some (PyInt 5)) by reflexivity.
  split; [exact H1|]. split; [exact H2|]. split; [reflexivity|].
  destruct (set_torch_compile_kwargs_refused demo_host 4 demo_wrapper demo_plain_world
              _ (PyInt 5) (invalid_backend demo_host (PyInt 5))
              (demo_wrapper, demo_plain_world) H1 H2 eq_refl) as (Hrun & _ & _ & _ & Hkept).
  split; [exact Hrun|exact Hkept].
Defined.

Lemma wrappers_share_config_options_witness :
  let s1 := MkWrapper demo_module demo_module false (InDict (PyStr "inductor")) 1%positive
                      (InDict PyNone) in
  let s2 := MkWrapper demo_module2 demo_module2 false (InDict (PyStr "inductor")) 1%positive
                      (InDict PyNone) in
  CompiledModuleWrapper_init demo_host demo_module (Some demo_config) demo_plain_world
  = (Ok s1, demo_plain_world)
  /\ CompiledModuleWrapper_init demo_host demo_module2 (Some demo_config) demo_plain_world
     = (Ok s2, demo_plain_world)
  /\ dicts demo_plain_world !! kwargs demo_config = Some ∅
  /\ dicts (snd (snd (set_torch_compile_kwargs demo_host 2 (s1, demo_plain_world))))
       !! _compile_kwargs s2
     = Some ({[ "mode" := PyStr "max-autotune" ]} ∪ ∅).
Proof.
  cbv zeta.
  assert (H1 : dicts demo_plain_world !! 2%positive
               = Some {[ "mode" := PyStr "max-autotune" ]}) by reflexivity.
  assert (H2 : ({[ "mode" := PyStr "max-autotune" ]} : gmap string PyVal) !! "backend"
               = None) by reflexivity.
  assert (H3 : dicts demo_plain_world !! kwargs demo_config = Some ∅) by reflexivity.
  split; [reflexivity|]. split; [reflexivity|]. split; [exact H3|].
  destruct (wrappers_share_config_options demo_host demo_module demo_module2 demo_config
              demo_plain_world demo_plain_world demo_plain_world _ _ 2 _ ∅
              eq_refl eq_refl H1 H2 H3) as (_ & _ & _ & Hs & _).
  exact Hs.
Defined.



Lemma forward_compile_failure_witness :
  let st1 := (demo_wrapper,
              MkWorld (dicts (demo_world ∅)) 1
                      [EvTorchCompile demo_module (PyStr "inductor") ∅]) in
  _is_compiled demo_wrapper = false
  /\ compile_step failing_host demo_state
     = (Raise (OtherError "RuntimeError" "compilation failed"), st1)
  /\ forward failing_host [PyInt 1] [] demo_state
     = (Raise (OtherError "RuntimeError" "compilation failed"), st1).
Proof.
  cbv zeta. split; [reflexivity|]. split; [reflexivity|].
  exact (proj1 (forward_compile_failure failing_host demo_wrapper (demo_world ∅)
                  (OtherError "RuntimeError" "compilation failed")
                  (demo_wrapper,
                   MkWorld (dicts (demo_world ∅)) 1
                           [EvTorchCompile demo_module (PyStr "inductor") ∅])
                  [PyInt 1] [] eq_refl eq_refl)).
Defined.

Lemma compiled_never_recompiles_witness :
  _is_compiled (fst demo_compiled_state) = true
  /\ compile_calls (trace (snd (run_ops demo_host demo_ops demo_compiled_state))) = 1
  /\ wrapped (fst (run_ops demo_host demo_ops demo_compiled_state)) = demo_compiled
  /\ _compiler_fn (fst (run_ops demo_host demo_ops demo_compiled_state))
     = InDict demo_compiler_fn.
Proof.
  split; [reflexivity|].
  destruct (compiled_never_recompiles demo_host demo_ops demo_compiled_state eq_refl)
    as (H1 & H2 & _).
  split; [exact H1|]. split; [exact H2|]. reflexivity.
Defined.


Lemma disable_pass_through_witness :
  has_compile old_host = false
  /\ disable old_host (fun _ n => (Raise (AttributeError "compiler"), n)) demo_backend_fn
       (demo_world ∅)
     = (Ok demo_backend_fn, demo_world ∅).
Proof.
  split; [reflexivity|].
  exact (proj1 (proj1 (disable_pass_through old_host
                         (fun _ n => (Raise (AttributeError "compiler"), n))
                         demo_backend_fn (demo_world ∅)) eq_refl)).
Defined.
